(** * A shallow embedding of the taskery-api domain and application layers

    Go strings are modelled by their rune sequences ([gostring]); a
    [time.Time] is an instant in nanoseconds ([Z]); [time.Now()] is an
    explicit argument [now]; a [uuid.UUID] is its canonical string form.
    Go's [error] values with [errors.Is] and [fmt.Errorf("%w: %s", ...)]
    are modelled by [error] and [errors_is]. *)

From Stdlib Require Import ZArith Lia List Bool String.
Import ListNotations.
Open Scope Z_scope.

(** ** Errors *)

Module Errors.

(** Every sentinel declared with [errors.New] that the modelled code
    returns or compares against; [ErrMismatchedHashAndPassword] is the
    sentinel of [golang.org/x/crypto/bcrypt]. *)
Inductive sentinel :=
  (* internal/domain/user/vo *)
  | ErrUsernameEmpty | ErrUsernameTooShort | ErrUsernameTooLong
  | ErrEmailEmpty | ErrEmailInvalid
  | ErrPasswordEmpty | ErrPasswordTooShort | ErrPasswordTooLong
  | ErrPasswordInvalid | ErrPasswordHashing
  | ErrPasswordVerifyFailed | ErrPassowrdNotMatch
  (* internal/domain/task/vo and models *)
  | ErrTitleEmpty | ErrTitleTooLong | ErrDescriptionTooLong
  | ErrDeadlineBeforeNow | ErrTaskFailedCreateFromDB
  (* internal/services/user_service.go *)
  | ErrUserRepoExists | ErrUserRepoNotFound
  | ErrUserExists | ErrUserNotFound | ErrUserRegisterFailed
  | ErrUserLoginFailed | ErrUserChangeEmailFailed
  | ErrUserChangePasswordFailed | ErrUserDeleteFailed
  | ErrUserUnauthorized | ErrEmailAlreadyTaken
  (* task service *)
  | ErrTaskRepoExists | ErrTaskRepoNotFound | ErrTaskRepoOwnerNotFound
  | ErrTaskExists | ErrTaskNotFound | ErrTaskOwnerNotFound
  | ErrTaskCreateFailed | ErrTaskChangeTitleFailed
  | ErrTaskChangeDescriptionFailed | ErrTaskSetDeadlineFailed
  | ErrTaskRemoveDeadlineFailed | ErrTaskCompleteFailed
  | ErrTaskReopenFailed | ErrTaskFindByOwnerFailed | ErrTaskAccessDenied
  (* bcrypt *)
  | ErrMismatchedHashAndPassword
  (* internal/domain/user/models *)
  | ErrUserIDInvalid.

Scheme Equality for sentinel.

(** A Go [error] value:
    - [Sentinel s] is the sentinel itself;
    - [Wrapf s cause] is [fmt.Errorf("%w: %s", s, cause)]: only [s] is
      wrapped ([%w]); the cause is formatted as text ([%s]);
    - [Opaque msg] is any other error (a driver or library failure). *)
Inductive error :=
  | Sentinel (s : sentinel)
  | Wrapf (s : sentinel) (cause : error)
  | Opaque (msg : string).

(** [errors.Is(err, target)] for a sentinel target: [err] is the
    sentinel or wraps it through [%w]. *)
Definition errors_is (err : error) (target : sentinel) : bool :=
  match err with
  | Sentinel s => sentinel_beq s target
  | Wrapf s _ => sentinel_beq s target
  | Opaque _ => false
  end.

(** Go's [(T, error)] pair: either a value and a nil error or an error. *)
Inductive result (A : Type) :=
  | Ok (a : A)
  | Err (e : error).
Arguments Ok {A} a.
Arguments Err {A} e.

End Errors.
Import Errors.

(** ** Strings and time *)

Module GoString.

(** A rune (a Unicode code point) and a Go string seen as its runes. *)
Definition rune := Z.
Definition gostring := list rune.

(** [unicode.IsSpace]. *)
Definition IsSpace (r : rune) : bool :=
  match r with
  | 9 | 10 | 11 | 12 | 13 | 32 | 133 | 160 => true
  | 5760 | 8232 | 8233 | 8239 | 8287 | 12288 => true
  | _ => (8192 <=? r) && (r <=? 8202)
  end.

Fixpoint trim_left (s : gostring) : gostring :=
  match s with
  | [] => []
  | r :: s' => if IsSpace r then trim_left s' else s
  end.

(** [strings.TrimSpace]. *)
Definition TrimSpace (s : gostring) : gostring :=
  rev (trim_left (rev (trim_left s))).

(** [len([]rune(s))]. *)
Definition rune_count (s : gostring) : Z := Z.of_nat (List.length s).

(** Width of a rune in UTF-8, so that [len(s)] is [byte_len s]. *)
Definition utf8_width (r : rune) : Z :=
  if r <? 128 then 1 else if r <? 2048 then 2
  else if r <? 65536 then 3 else 4.

Definition byte_len (s : gostring) : Z :=
  fold_right (fun r acc => utf8_width r + acc) 0 s.

(** Runes of an ASCII string literal. *)
Definition of_string (s : string) : gostring :=
  map (fun a => Z.of_nat (Ascii.nat_of_ascii a)) (list_ascii_of_string s).

(** String equality [a == b]. *)
Fixpoint eqb (a b : gostring) : bool :=
  match a, b with
  | [], [] => true
  | x :: a', y :: b' => Z.eqb x y && eqb a' b'
  | _, _ => false
  end.

End GoString.
Import GoString.

(** [time.Time] as nanoseconds; [t.Before(u)] and [t.After(u)]. *)
Definition time := Z.
Definition Before (t u : time) : bool := t <? u.
Definition After (t u : time) : bool := u <? t.

(** [p != nil] for a pointer field, modelled as an option. *)
Definition isSome {A : Type} (o : option A) : bool :=
  match o with Some _ => true | None => false end.

(** ** Task value objects (internal/domain/task/vo) *)

Module TaskVO.

(** [vo.Title]. *)
Record Title := mkTitle { title_value : gostring }.

Definition TitleMaxLength : Z := 50.

(** [vo.NewTitle]. *)
Definition NewTitle (value : gostring) : result Title :=
  let value := TrimSpace value in
  match value with
  | [] => Err (Sentinel ErrTitleEmpty)
  | _ =>
      if rune_count value >? TitleMaxLength then Err (Sentinel ErrTitleTooLong)
      else Ok (mkTitle value)
  end.

(** [vo.Description]. *)
Record Description := mkDescription { description_value : gostring }.

Definition DescriptionMaxLength : Z := 1000.

(** [vo.NewDescription]. *)
Definition NewDescription (value : gostring) : result Description :=
  if rune_count value >? DescriptionMaxLength then Err (Sentinel ErrDescriptionTooLong)
  else Ok (mkDescription value).

(** [vo.Deadline]. *)
Record Deadline := mkDeadline { deadline_value : time }.

(** [vo.NewDeadline]; [now] is the value of [time.Now()] read in its body. *)
Definition NewDeadline (value : time) (now : time) : result Deadline :=
  if Before value now then Err (Sentinel ErrDeadlineBeforeNow)
  else Ok (mkDeadline value).

(** [Deadline.Time]. *)
Definition Time (d : Deadline) : time := deadline_value d.

Definition IsBefore (d : Deadline) (t : time) : bool := Before (deadline_value d) t.
Definition IsAfter (d : Deadline) (t : time) : bool := After (deadline_value d) t.
Definition IsOverdue (d : Deadline) (now : time) : bool := Before (deadline_value d) now.

End TaskVO.
Import TaskVO.

(** ** The task entity (internal/domain/task/models/task.go) *)

Module TaskModel.

(** [models.Task]; [owner] is the owner's UUID in its string form, the
    value [task.OwnerID().String()] the service compares. *)
Record Task := mkTask {
  id : string;
  owner : string;
  title : Title;
  description : Description;
  deadline : option Deadline;
  isCompleted : bool;
  completedAt : option time
}.

(** [NewTask]; [fresh_id] is the value of [uuid.New()]. *)
Definition NewTask (title : gostring) (description : gostring) (owner : string)
    (fresh_id : string) : result Task :=
  match NewTitle title with
  | Err e => Err e
  | Ok titleVO =>
      match NewDescription description with
      | Err e => Err e
      | Ok descriptionVO =>
          Ok {| id := fresh_id; owner := owner;
                title := titleVO; description := descriptionVO;
                deadline := None;
                isCompleted := false; completedAt := None |}
      end
  end.

(** [TaskFromDBParams]. *)
Record TaskFromDBParams := mkTaskFromDBParams {
  p_ID : string;
  p_Owner : string;
  p_Title : gostring;
  p_Description : gostring;
  p_Deadline : option time;
  p_IsCompleted : bool;
  p_CompletedAt : option time
}.

(** The error [NewTaskFromDB] returns on contradicting fields. *)
Definition ErrContradict : error :=
  Wrapf ErrTaskFailedCreateFromDB
    (Opaque "completedAt and isCompleted fields contradict").

(** [NewTaskFromDB]; [now] is the clock read by [vo.NewDeadline]. *)
Definition NewTaskFromDB (p : TaskFromDBParams) (now : time) : result Task :=
  if (p_IsCompleted p && negb (isSome (p_CompletedAt p)))
     || (negb (p_IsCompleted p) && isSome (p_CompletedAt p))
  then Err ErrContradict
  else
    match NewTitle (p_Title p) with
    | Err e => Err e
    | Ok titleVO =>
        match NewDescription (p_Description p) with
        | Err e => Err e
        | Ok descriptionVO =>
            let task := {| id := p_ID p; owner := p_Owner p;
                           title := titleVO; description := descriptionVO;
                           deadline := None;
                           isCompleted := p_IsCompleted p;
                           completedAt := p_CompletedAt p |} in
            match p_Deadline p with
            | None => Ok task
            | Some d =>
                match NewDeadline d now with
                | Err e => Err e
                | Ok deadlineVO => Ok {| id := id task; owner := owner task;
                                         title := title task;
                                         description := description task;
                                         deadline := Some deadlineVO;
                                         isCompleted := isCompleted task;
                                         completedAt := completedAt task |}
                end
            end
        end
    end.

(** Replacing the deadline field: [t.deadline = d]. *)
Definition with_deadline (t : Task) (d : option Deadline) : Task :=
  {| id := id t; owner := owner t; title := title t;
     description := description t; deadline := d;
     isCompleted := isCompleted t; completedAt := completedAt t |}.

(** [NewTaskWithDeadline]. *)
Definition NewTaskWithDeadline (title : gostring) (description : gostring)
    (owner : string) (deadline : time) (fresh_id : string) (now : time)
    : result Task :=
  match NewTask title description owner fresh_id with
  | Err e => Err e
  | Ok task =>
      match NewDeadline deadline now with
      | Err e => Err e
      | Ok deadlineVO => Ok (with_deadline task (Some deadlineVO))
      end
  end.

(** The mutating methods take the receiver and return its new state;
    when they return an error the receiver is left as it was. *)

(** [Task.ChangeTitle]. *)
Definition ChangeTitle (t : Task) (newTitle : gostring) : result Task :=
  match NewTitle newTitle with
  | Err e => Err e
  | Ok v => Ok {| id := id t; owner := owner t; title := v;
                  description := description t; deadline := deadline t;
                  isCompleted := isCompleted t; completedAt := completedAt t |}
  end.

(** [Task.ChangeDescription]. *)
Definition ChangeDescription (t : Task) (newDescription : gostring) : result Task :=
  match NewDescription newDescription with
  | Err e => Err e
  | Ok v => Ok {| id := id t; owner := owner t; title := title t;
                  description := v; deadline := deadline t;
                  isCompleted := isCompleted t; completedAt := completedAt t |}
  end.

(** [Task.SetDeadline]. *)
Definition SetDeadline (t : Task) (deadline : time) (now : time) : result Task :=
  match NewDeadline deadline now with
  | Err e => Err e
  | Ok v => Ok (with_deadline t (Some v))
  end.

(** [Task.RemoveDeadline]. *)
Definition RemoveDeadline (t : Task) : Task := with_deadline t None.

(** [Task.IsOverdue]. *)
Definition IsOverdue (t : Task) (now : time) : bool :=
  match deadline t with
  | None => false
  | Some d => TaskVO.IsOverdue d now && negb (isCompleted t)
  end.

(** [Task.Complete]; [now] is the value of [time.Now()]. *)
Definition Complete (t : Task) (now : time) : Task :=
  if negb (isCompleted t) then
    {| id := id t; owner := owner t; title := title t;
       description := description t; deadline := deadline t;
       isCompleted := true; completedAt := Some now |}
  else t.

(** [Task.Reopen]. *)
Definition Reopen (t : Task) : Task :=
  {| id := id t; owner := owner t; title := title t;
     description := description t; deadline := deadline t;
     isCompleted := false; completedAt := None |}.

End TaskModel.
Import TaskModel.

(** ** The task application service (services.TaskService) *)

Module TaskService.

(** The calls the service makes on its repository, in order. *)
Inductive RepoCall :=
  | CallFindByID (id : string)
  | CallUpdate (t : Task).

(** The [TaskRepository] interface, restricted to the methods the
    modelled operations call. [FindByID] reads; [Update] may change the
    repository's state. As in the postgres implementation, [FindByID]
    hands out a task built afresh from the stored row. *)
Class TaskRepository (R : Type) := {
  FindByID : R -> string -> result Task;
  Update : R -> Task -> R * option error
}.

(** The service threads the repository's state together with the log of
    calls made on it. *)
Definition St (R : Type) := (R * list RepoCall)%type.
Definition M (R A : Type) := St R -> A * St R.

Definition ret {R A : Type} (a : A) : M R A := fun s => (a, s).
Definition bind {R A B : Type} (m : M R A) (k : A -> M R B) : M R B :=
  fun s => let (a, s') := m s in k a s'.

Local Notation "x <- m ;; k" := (bind m (fun x => k))
  (at level 61, m at next level, right associativity).

Section Operations.
Context {R : Type} `{TaskRepository R}.

Definition repoFindByID (tid : string) : M R (result Task) :=
  fun s => (FindByID (fst s) tid, (fst s, snd s ++ [CallFindByID tid])).

Definition repoUpdate (t : Task) : M R (option error) :=
  fun s => let (r', e) := Update (fst s) t in (e, (r', snd s ++ [CallUpdate t])).

(** Persisting and wrapping an [Update] failure with [tag]. *)
Definition persist (tag : sentinel) (t : Task) : M R (option error) :=
  err <- repoUpdate t ;;
  match err with
  | Some e => ret (Some (Wrapf tag e))
  | None => ret None
  end.

(** The lookup failure branch shared by every operation:
    [if errors.Is(err, ErrTaskRepoNotFound) { return ErrTaskNotFound }]
    followed by [return fmt.Errorf("%w: %s", tag, err)]. *)
Definition lookup_failed (tag : sentinel) (e : error) : M R (option error) :=
  if errors_is e ErrTaskRepoNotFound then ret (Some (Sentinel ErrTaskNotFound))
  else ret (Some (Wrapf tag e)).

(** [task.OwnerID().String() != ownerID]. *)
Definition owner_differs (task : Task) (ownerID : string) : bool :=
  negb (String.eqb (owner task) ownerID).

(** [TaskService.ChangeTitle]. *)
Definition ChangeTitle (tid ownerID : string) (new : gostring) : M R (option error) :=
  res <- repoFindByID tid ;;
  match res with
  | Err e => lookup_failed ErrTaskChangeTitleFailed e
  | Ok task =>
      if owner_differs task ownerID then ret (Some (Sentinel ErrTaskAccessDenied))
      else match TaskModel.ChangeTitle task new with
           | Err e => ret (Some e)
           | Ok task' => persist ErrTaskChangeTitleFailed task'
           end
  end.

(** [TaskService.ChangeDescription]. *)
Definition ChangeDescription (tid ownerID : string) (new : gostring) : M R (option error) :=
  res <- repoFindByID tid ;;
  match res with
  | Err e => lookup_failed ErrTaskChangeDescriptionFailed e
  | Ok task =>
      if owner_differs task ownerID then ret (Some (Sentinel ErrTaskAccessDenied))
      else match TaskModel.ChangeDescription task new with
           | Err e => ret (Some e)
           | Ok task' => persist ErrTaskChangeDescriptionFailed task'
           end
  end.

(** [TaskService.SetDeadline]; [now] is the clock read by [vo.NewDeadline]. *)
Definition SetDeadline (tid ownerID : string) (deadline : time) (now : time)
    : M R (option error) :=
  res <- repoFindByID tid ;;
  match res with
  | Err e => lookup_failed ErrTaskSetDeadlineFailed e
  | Ok task =>
      if owner_differs task ownerID then ret (Some (Sentinel ErrTaskAccessDenied))
      else match TaskModel.SetDeadline task deadline now with
           | Err e => ret (Some e)
           | Ok task' => persist ErrTaskSetDeadlineFailed task'
           end
  end.

(** [TaskService.RemoveDeadline]. *)
Definition RemoveDeadline (tid ownerID : string) : M R (option error) :=
  res <- repoFindByID tid ;;
  match res with
  | Err e => lookup_failed ErrTaskRemoveDeadlineFailed e
  | Ok task =>
      if owner_differs task ownerID then ret (Some (Sentinel ErrTaskAccessDenied))
      else persist ErrTaskRemoveDeadlineFailed (TaskModel.RemoveDeadline task)
  end.

(** [TaskService.Complete]; [now] is the clock read by [Task.Complete]. *)
Definition Complete (tid ownerID : string) (now : time) : M R (option error) :=
  res <- repoFindByID tid ;;
  match res with
  | Err e => lookup_failed ErrTaskCompleteFailed e
  | Ok task =>
      if owner_differs task ownerID then ret (Some (Sentinel ErrTaskAccessDenied))
      else if isCompleted task then ret None
      else persist ErrTaskCompleteFailed (TaskModel.Complete task now)
  end.

(** [TaskService.Reopen]. *)
Definition Reopen (tid ownerID : string) : M R (option error) :=
  res <- repoFindByID tid ;;
  match res with
  | Err e => lookup_failed ErrTaskReopenFailed e
  | Ok task =>
      if owner_differs task ownerID then ret (Some (Sentinel ErrTaskAccessDenied))
      else if negb (isCompleted task) then ret None
      else persist ErrTaskReopenFailed (TaskModel.Reopen task)
  end.

End Operations.

(** An in-memory repository: the stored tasks, and the error its
    [Update] is made to fail with, as the tests' mocks are configured.
    A missing row is reported with [ErrTaskRepoNotFound], as the postgres
    repository does when no row is affected. *)
Record MemRepo := mkMemRepo {
  mem_tasks : list Task;
  mem_update_err : option error
}.

Definition mem_find (ts : list Task) (tid : string) : option Task :=
  find (fun t => String.eqb (id t) tid) ts.

#[global] Instance MemTaskRepository : TaskRepository MemRepo := {
  FindByID r tid :=
    match mem_find (mem_tasks r) tid with
    | Some t => Ok t
    | None => Err (Sentinel ErrTaskRepoNotFound)
    end;
  Update r t :=
    match mem_update_err r with
    | Some e => (r, Some e)
    | None =>
        match mem_find (mem_tasks r) (id t) with
        | None => (r, Some (Sentinel ErrTaskRepoNotFound))
        | Some _ =>
            (mkMemRepo (map (fun u => if String.eqb (id u) (id t) then t else u)
                            (mem_tasks r)) None, None)
        end
    end
}.

End TaskService.

(** ** User value objects (internal/domain/user/vo) *)

Module UserVO.

(** The library functions the value objects call:
    [bcrypt.CompareHashAndPassword] (nil or an error),
    [bcrypt.GenerateFromPassword] and [mail.ParseAddress] (nil or an
    error; the parsed address is discarded by [NewEmail]). A byte slice
    is modelled as a [gostring]. *)
Class Externals := {
  CompareHashAndPassword : gostring -> gostring -> option error;
  GenerateFromPassword : gostring -> result gostring;
  ParseAddress : gostring -> option error
}.

Section VOs.
Context `{Externals}.

(** [vo.Username]. *)
Record Username := mkUsername { username_value : gostring }.

Definition UsernameMinLength : Z := 2.
Definition UsernameMaxLength : Z := 30.

(** [vo.NewUsername]. *)
Definition NewUsername (value : gostring) : result Username :=
  match value with
  | [] => Err (Sentinel ErrUsernameEmpty)
  | _ =>
      if rune_count value <? UsernameMinLength then Err (Sentinel ErrUsernameTooShort)
      else if rune_count value >? UsernameMaxLength then Err (Sentinel ErrUsernameTooLong)
      else Ok (mkUsername value)
  end.

(** [vo.Email]. *)
Record Email := mkEmail { email_value : gostring }.

(** [vo.NewEmail]. *)
Definition NewEmail (value : gostring) : result Email :=
  let value := TrimSpace value in
  match value with
  | [] => Err (Sentinel ErrEmailEmpty)
  | _ =>
      match ParseAddress value with
      | Some _ => Err (Sentinel ErrEmailInvalid)
      | None => Ok (mkEmail value)
      end
  end.

(** [vo.Password]: the hash. *)
Record Password := mkPassword { password_value : gostring }.

Definition PasswordMinLength : Z := 8.
Definition PasswordMaxLength : Z := 72.

(** [isASCII]. *)
Definition isASCII (s : gostring) : bool := forallb (fun r => r <=? 127) s.

(** [vo.NewPassword]; [len(raw)] counts bytes. *)
Definition NewPassword (raw : gostring) : result Password :=
  match raw with
  | [] => Err (Sentinel ErrPasswordEmpty)
  | _ =>
      if negb (isASCII raw) then Err (Sentinel ErrPasswordInvalid)
      else if byte_len raw <? PasswordMinLength then Err (Sentinel ErrPasswordTooShort)
      else if byte_len raw >? PasswordMaxLength then Err (Sentinel ErrPasswordTooLong)
      else match GenerateFromPassword raw with
           | Err _ => Err (Sentinel ErrPasswordHashing)
           | Ok hash => Ok (mkPassword hash)
           end
  end.

(** [Password.Verify]: [None] is a nil error. *)
Definition Verify (p : Password) (raw : gostring) : option error :=
  match CompareHashAndPassword (password_value p) raw with
  | None => None
  | Some err =>
      if errors_is err ErrMismatchedHashAndPassword then Some (Sentinel ErrPassowrdNotMatch)
      else Some (Wrapf ErrPasswordVerifyFailed err)
  end.

End VOs.

(** Library stand-ins for concrete runs: a "hash" is the password
    itself, an empty hash is rejected as bcrypt rejects a too short one,
    and an address must contain an at sign. *)
#[export] Instance PlainExternals : Externals := {
  CompareHashAndPassword h raw :=
    match h with
    | [] => Some (Opaque "crypto/bcrypt: hashedSecret too short to be a bcrypted password")
    | _ => if eqb h raw then None else Some (Sentinel ErrMismatchedHashAndPassword)
    end;
  GenerateFromPassword raw := Ok raw;
  ParseAddress s :=
    if existsb (fun r => r =? 64) s then None
    else Some (Opaque "mail: missing @ in addr-spec")
}.

End UserVO.
Import UserVO.

(** ** The user entity (internal/domain/user/models/user.go) *)

Module UserModel.

Section Entity.
Context `{Externals}.

(** [models.User]. *)
Record User := mkUser {
  user_id : string;
  username : Username;
  email : Email;
  passwordHash : Password
}.

(** [User.ChangeUsername]: the new state, or an error and no change. *)
Definition ChangeUsername (u : User) (new : gostring) : result User :=
  match NewUsername new with
  | Err e => Err e
  | Ok v => Ok (mkUser (user_id u) v (email u) (passwordHash u))
  end.

(** [User.ChangeEmail]. *)
Definition ChangeEmail (u : User) (new : gostring) : result User :=
  match NewEmail new with
  | Err e => Err e
  | Ok v => Ok (mkUser (user_id u) (username u) v (passwordHash u))
  end.

(** [User.ChangePassword]. *)
Definition ChangePassword (u : User) (old new : gostring) : result User :=
  match Verify (passwordHash u) old with
  | Some e => Err e
  | None =>
      match NewPassword new with
      | Err e => Err e
      | Ok v => Ok (mkUser (user_id u) (username u) (email u) v)
      end
  end.

End Entity.

End UserModel.
Import UserModel.

(** ** The user application service (internal/services/user_service.go) *)

Module UserService.

Inductive RepoCall :=
  | CallFindByID (id : string)
  | CallFindByEmail (email : gostring)
  | CallUpdate (u : User).

(** The [UserRepository] interface, restricted to the methods the
    modelled operations call. *)
Class UserRepository (R : Type) := {
  FindByID : R -> string -> result User;
  FindByEmail : R -> gostring -> result User;
  Update : R -> User -> R * option error
}.

Definition St (R : Type) := (R * list RepoCall)%type.
Definition M (R A : Type) := St R -> A * St R.

Definition ret {R A : Type} (a : A) : M R A := fun s => (a, s).
Definition bind {R A B : Type} (m : M R A) (k : A -> M R B) : M R B :=
  fun s => let (a, s') := m s in k a s'.

Local Notation "x <- m ;; k" := (bind m (fun x => k))
  (at level 61, m at next level, right associativity).

Section Operations.
Context `{Externals} {R : Type} `{UserRepository R}.

Definition repoFindByID (uid : string) : M R (result User) :=
  fun s => (FindByID (fst s) uid, (fst s, snd s ++ [CallFindByID uid])).

Definition repoFindByEmail (e : gostring) : M R (result User) :=
  fun s => (FindByEmail (fst s) e, (fst s, snd s ++ [CallFindByEmail e])).

Definition repoUpdate (u : User) : M R (option error) :=
  fun s => let (r', e) := Update (fst s) u in (e, (r', snd s ++ [CallUpdate u])).

(** [errors.Is(err, target)] for an error that may be nil. *)
Definition is_err (err : option error) (target : sentinel) : bool :=
  match err with
  | Some e => errors_is e target
  | None => false
  end.

(** Persisting and wrapping an [Update] failure with [tag]. *)
Definition persist (tag : sentinel) (u : User) : M R (option error) :=
  err <- repoUpdate u ;;
  match err with
  | Some e => ret (Some (Wrapf tag e))
  | None => ret None
  end.

(** The lookup by id shared by the three operations. *)
Definition lookup_failed (tag : sentinel) (err : error) : M R (option error) :=
  if errors_is err ErrUserRepoNotFound then ret (Some (Sentinel ErrUserNotFound))
  else ret (Some (Wrapf tag err)).

(** [UserService.ChangeUsername]: a verification error other than the
    mismatch falls through to the change. *)
Definition ChangeUsername (uid : string) (newUsername password : gostring)
    : M R (option error) :=
  res <- repoFindByID uid ;;
  match res with
  | Err err => lookup_failed ErrUserChangeEmailFailed err
  | Ok user =>
      let err := Verify (passwordHash user) password in
      if is_err err ErrPassowrdNotMatch then ret (Some (Sentinel ErrUserUnauthorized))
      else
        match UserModel.ChangeUsername user newUsername with
        | Err e => ret (Some e)
        | Ok user' => persist ErrUserChangeEmailFailed user'
        end
  end.

(** [UserService.ChangeEmail]; note the lookup of [newEmail] is compared
    against [ErrUserNotFound], as in the source. *)
Definition ChangeEmail (uid : string) (newEmail password : gostring)
    : M R (option error) :=
  res <- repoFindByID uid ;;
  match res with
  | Err err => lookup_failed ErrUserChangeEmailFailed err
  | Ok user =>
      let err := Verify (passwordHash user) password in
      if is_err err ErrPassowrdNotMatch then ret (Some (Sentinel ErrUserUnauthorized))
      else match err with
      | Some e => ret (Some (Wrapf ErrUserChangeEmailFailed e))
      | None =>
          taken <- repoFindByEmail newEmail ;;
          match taken with
          | Ok _ => ret (Some (Sentinel ErrEmailAlreadyTaken))
          | Err err =>
              if negb (errors_is err ErrUserNotFound)
              then ret (Some (Wrapf ErrUserChangeEmailFailed err))
              else
                match UserModel.ChangeEmail user newEmail with
                | Err e => ret (Some e)
                | Ok user' => persist ErrUserChangeEmailFailed user'
                end
          end
      end
  end.

(** [UserService.ChangePassword]. *)
Definition ChangePassword (uid : string) (old new : gostring) : M R (option error) :=
  res <- repoFindByID uid ;;
  match res with
  | Err err => lookup_failed ErrUserChangePasswordFailed err
  | Ok user =>
      match UserModel.ChangePassword user old new with
      | Err e => ret (Some e)
      | Ok user' => persist ErrUserChangePasswordFailed user'
      end
  end.

End Operations.

(** An in-memory user repository; lookups that find nothing and updates
    of a missing row report [ErrUserRepoNotFound], as the postgres
    repository does; [mem_update_err] makes [Update] fail. *)
Record MemRepo := mkMemRepo {
  mem_users : list User;
  mem_update_err : option error
}.

#[global] Instance MemUserRepository : UserRepository MemRepo := {
  FindByID r uid :=
    match find (fun u => String.eqb (user_id u) uid) (mem_users r) with
    | Some u => Ok u
    | None => Err (Sentinel ErrUserRepoNotFound)
    end;
  FindByEmail r e :=
    match find (fun u => eqb (email_value (email u)) e) (mem_users r) with
    | Some u => Ok u
    | None => Err (Sentinel ErrUserRepoNotFound)
    end;
  Update r u :=
    match mem_update_err r with
    | Some e => (r, Some e)
    | None =>
        match find (fun v => String.eqb (user_id v) (user_id u)) (mem_users r) with
        | None => (r, Some (Sentinel ErrUserRepoNotFound))
        | Some _ =>
            (mkMemRepo (map (fun v => if String.eqb (user_id v) (user_id u) then u else v)
                            (mem_users r)) None, None)
        end
    end
}.

End UserService.

(** ** User constructors (internal/domain/user/models/user.go) *)

Module UserCtor.

(** [uuid.Parse]: the canonical form of a well-formed UUID, or an error. *)
Class UUIDParser := {
  Parse : string -> result string
}.

Section Ctors.
Context `{Externals} `{UUIDParser}.

(** [models.NewUser]; [fresh_id] is the value of [uuid.New()]. *)
Definition NewUser (username email password : gostring) (fresh_id : string)
    : result User :=
  match NewUsername username with
  | Err e => Err e
  | Ok usernameVO =>
      match NewEmail email with
      | Err e => Err e
      | Ok emailVO =>
          match NewPassword password with
          | Err e => Err e
          | Ok passwordVO => Ok (mkUser fresh_id usernameVO emailVO passwordVO)
          end
      end
  end.

(** [UserFromDBParams]. *)
Record UserFromDBParams := mkUserFromDBParams {
  u_ID : string;
  u_Username : gostring;
  u_Email : gostring;
  u_PasswordHash : gostring
}.

(** [vo.NewPasswordFromHash]: the hash is copied, never validated. *)
Definition NewPasswordFromHash (hash : gostring) : Password := mkPassword hash.

(** [models.NewUserFromDB]. *)
Definition NewUserFromDB (p : UserFromDBParams) : result User :=
  match NewUsername (u_Username p) with
  | Err e => Err e
  | Ok usernameVO =>
      match NewEmail (u_Email p) with
      | Err e => Err e
      | Ok emailVO =>
          let passwordVO := NewPasswordFromHash (u_PasswordHash p) in
          match Parse (u_ID p) with
          | Err _ => Err (Sentinel ErrUserIDInvalid)
          | Ok parsedID => Ok (mkUser parsedID usernameVO emailVO passwordVO)
          end
      end
  end.

End Ctors.

End UserCtor.
Import UserCtor.

(** ** Registration, login and deletion (internal/services/user_service.go) *)

Module UserAccounts.

(** The calls made on the user repository by these operations. *)
Inductive RepoCall :=
  | CallCreate (u : User)
  | CallFindByID (id : string)
  | CallFindByEmail (email : gostring)
  | CallDelete (id : string).

(** The remaining methods of the [UserRepository] interface. *)
Class UserStore (R : Type) := {
  Create : R -> User -> R * option error;
  Delete : R -> string -> R * option error
}.

(** The [TokenProvider] interface. *)
Class TokenProvider := {
  Generate : string -> result string
}.

Definition St (R : Type) := (R * list RepoCall)%type.
Definition M (R A : Type) := St R -> A * St R.

Definition ret {R A : Type} (a : A) : M R A := fun s => (a, s).
Definition bind {R A B : Type} (m : M R A) (k : A -> M R B) : M R B :=
  fun s => let (a, s') := m s in k a s'.

Local Notation "x <- m ;; k" := (bind m (fun x => k))
  (at level 61, m at next level, right associativity).

Section Operations.
Context `{Externals} `{TokenProvider} {R : Type}
        `{UserService.UserRepository R} `{UserStore R}.

Definition repoCreate (u : User) : M R (option error) :=
  fun s => let (r', e) := Create (fst s) u in (e, (r', snd s ++ [CallCreate u])).

Definition repoFindByID (uid : string) : M R (result User) :=
  fun s => (UserService.FindByID (fst s) uid, (fst s, snd s ++ [CallFindByID uid])).

Definition repoFindByEmail (e : gostring) : M R (result User) :=
  fun s => (UserService.FindByEmail (fst s) e, (fst s, snd s ++ [CallFindByEmail e])).

Definition repoDelete (uid : string) : M R (option error) :=
  fun s => let (r', e) := Delete (fst s) uid in (e, (r', snd s ++ [CallDelete uid])).

(** [UserService.Register]; [fresh_id] is the id [models.NewUser] draws. *)
Definition Register (username email password : gostring) (fresh_id : string)
    : M R (option error) :=
  match NewUser username email password fresh_id with
  | Err e => ret (Some e)
  | Ok user =>
      err <- repoCreate user ;;
      match err with
      | None => ret None
      | Some e =>
          if errors_is e ErrUserRepoExists then ret (Some (Sentinel ErrUserExists))
          else ret (Some (Sentinel ErrUserRegisterFailed))
      end
  end.

(** [UserService.Login]: the token, or an error. *)
Definition Login (email password : gostring) : M R (result string) :=
  res <- repoFindByEmail email ;;
  match res with
  | Err err =>
      if errors_is err ErrUserRepoNotFound then ret (Err (Sentinel ErrUserNotFound))
      else ret (Err (Wrapf ErrUserLoginFailed err))
  | Ok user =>
      let err := Verify (passwordHash user) password in
      if UserService.is_err err ErrPassowrdNotMatch
      then ret (Err (Sentinel ErrUserUnauthorized))
      else match err with
      | Some e => ret (Err (Wrapf ErrUserLoginFailed e))
      | None =>
          match Generate (user_id user) with
          | Err e => ret (Err (Wrapf ErrUserLoginFailed e))
          | Ok token => ret (Ok token)
          end
      end
  end.

(** [UserService.Delete]. *)
Definition DeleteUser (uid : string) (password : gostring) : M R (option error) :=
  res <- repoFindByID uid ;;
  match res with
  | Err err =>
      if errors_is err ErrUserRepoNotFound then ret (Some (Sentinel ErrUserNotFound))
      else ret (Some (Wrapf ErrUserDeleteFailed err))
  | Ok user =>
      let err := Verify (passwordHash user) password in
      if UserService.is_err err ErrPassowrdNotMatch
      then ret (Some (Sentinel ErrUserUnauthorized))
      else match err with
      | Some e => ret (Some (Wrapf ErrUserDeleteFailed e))
      | None =>
          derr <- repoDelete uid ;;
          match derr with
          | Some e => ret (Some (Wrapf ErrUserDeleteFailed e))
          | None => ret None
          end
      end
  end.

End Operations.

End UserAccounts.

(** ** Task creation and listing (services.TaskService) *)

Module TaskCreation.

Inductive RepoCall :=
  | CallCreate (t : Task)
  | CallFindByOwner (ownerID : string).

(** The remaining methods of the [TaskRepository] interface. *)
Class TaskStore (R : Type) := {
  Create : R -> Task -> R * option error;
  FindByOwner : R -> string -> result (list Task)
}.

(** [CreateTaskCommand]. *)
Record CreateTaskCommand := mkCreateTaskCommand {
  cmd_Title : gostring;
  cmd_Description : gostring;
  cmd_OwnerID : string;
  cmd_Deadline : option time
}.

Definition St (R : Type) := (R * list RepoCall)%type.
Definition M (R A : Type) := St R -> A * St R.

Definition ret {R A : Type} (a : A) : M R A := fun s => (a, s).
Definition bind {R A B : Type} (m : M R A) (k : A -> M R B) : M R B :=
  fun s => let (a, s') := m s in k a s'.

Local Notation "x <- m ;; k" := (bind m (fun x => k))
  (at level 61, m at next level, right associativity).

Section Operations.
Context {R : Type} `{TaskStore R}.

Definition repoCreate (t : Task) : M R (option error) :=
  fun s => let (r', e) := Create (fst s) t in (e, (r', snd s ++ [CallCreate t])).

Definition repoFindByOwner (o : string) : M R (result (list Task)) :=
  fun s => (FindByOwner (fst s) o, (fst s, snd s ++ [CallFindByOwner o])).

(** [TaskService.Create]; [fresh_id] is [uuid.New()] and [now] the clock
    read by [vo.NewDeadline]. *)
Definition CreateTask (cmd : CreateTaskCommand) (fresh_id : string) (now : time)
    : M R (option error) :=
  let built :=
    match cmd_Deadline cmd with
    | None => NewTask (cmd_Title cmd) (cmd_Description cmd) (cmd_OwnerID cmd) fresh_id
    | Some d => NewTaskWithDeadline (cmd_Title cmd) (cmd_Description cmd)
                  (cmd_OwnerID cmd) d fresh_id now
    end in
  match built with
  | Err e => ret (Some e)
  | Ok task =>
      err <- repoCreate task ;;
      match err with
      | None => ret None
      | Some e =>
          if errors_is e ErrTaskRepoExists then ret (Some (Sentinel ErrTaskExists))
          else if errors_is e ErrTaskRepoOwnerNotFound
          then ret (Some (Sentinel ErrTaskOwnerNotFound))
          else ret (Some (Wrapf ErrTaskCreateFailed e))
      end
  end.

(** [TaskService.FindByOwner]. *)
Definition FindTasksByOwner (ownerID : string) : M R (result (list Task)) :=
  res <- repoFindByOwner ownerID ;;
  match res with
  | Err e => ret (Err (Wrapf ErrTaskFindByOwnerFailed e))
  | Ok tasks => ret (Ok tasks)
  end.

End Operations.

End TaskCreation.

(** Stand-ins for concrete runs: [uuid.Parse] accepting the 36-character
    form, a token provider signing the user id, and creation/deletion on
    the in-memory repositories (a duplicate id is reported as the
    postgres repositories report a unique violation). *)
#[global] Instance LengthUUIDParser : UUIDParser := {
  Parse s := if (String.length s =? 36)%nat then Ok s else Err (Opaque "invalid UUID length")
}.

#[global] Instance EchoTokenProvider : UserAccounts.TokenProvider := {
  Generate uid := Ok ("token:" ++ uid)%string
}.

#[global] Instance MemUserStore : UserAccounts.UserStore UserService.MemRepo := {
  Create r u :=
    if existsb (fun v => String.eqb (user_id v) (user_id u)
                         || eqb (email_value (email v)) (email_value (email u)))
               (UserService.mem_users r)
    then (r, Some (Sentinel ErrUserRepoExists))
    else (UserService.mkMemRepo (UserService.mem_users r ++ [u])
                                (UserService.mem_update_err r), None);
  Delete r uid :=
    if existsb (fun v => String.eqb (user_id v) uid) (UserService.mem_users r)
    then (UserService.mkMemRepo
            (filter (fun v => negb (String.eqb (user_id v) uid)) (UserService.mem_users r))
            (UserService.mem_update_err r), None)
    else (r, Some (Sentinel ErrUserRepoNotFound))
}.

#[global] Instance MemTaskStore : TaskCreation.TaskStore TaskService.MemRepo := {
  Create r t :=
    if existsb (fun u => String.eqb (id u) (id t)) (TaskService.mem_tasks r)
    then (r, Some (Sentinel ErrTaskRepoExists))
    else (TaskService.mkMemRepo (TaskService.mem_tasks r ++ [t])
                                (TaskService.mem_update_err r), None);
  FindByOwner r o := Ok (filter (fun t => String.eqb (owner t) o) (TaskService.mem_tasks r))
}.

(** ** Concrete data for runs of the model *)

Module Samples.

Definition alice_hash : gostring := of_string "longenough1".

Definition alice : User :=
  mkUser "u-alice" (mkUsername (of_string "alice"))
         (mkEmail (of_string "alice@x.com")) (mkPassword alice_hash).

(** A user whose stored hash is corrupted (empty). *)
Definition carol : User :=
  mkUser "u-carol" (mkUsername (of_string "carol"))
         (mkEmail (of_string "carol@x.com")) (mkPassword []).

Definition users (update_err : option error) : UserService.MemRepo :=
  UserService.mkMemRepo [alice; carol] update_err.

Definition open_task : Task :=
  mkTask "t-1" "owner-U" (mkTitle (of_string "T")) (mkDescription [])
         None false None.

Definition done_task : Task :=
  mkTask "t-2" "owner-U" (mkTitle (of_string "T")) (mkDescription [])
         (Some (mkDeadline 500)) true (Some 100).

Definition tasks : TaskService.MemRepo :=
  TaskService.mkMemRepo [open_task; done_task] None.

End Samples.
Import Samples.

(** ** Predicates used by the statements *)

(** [true] when a result is an error matching [target] under [errors.Is]. *)
Definition fails_with {A : Type} (res : result A) (target : sentinel) : bool :=
  match res with
  | Err e => errors_is e target
  | Ok _ => false
  end.

(** The invariant of a task. *)
Definition task_inv (t : Task) : Prop :=
  isCompleted t = true <-> completedAt t <> None.

(** [carol] after a change of username. *)
Definition carol' : User :=
  mkUser "u-carol" (mkUsername (of_string "carla")) (email carol) (passwordHash carol).

(** A stored task whose deadline has passed. *)
Definition stored_overdue : TaskFromDBParams :=
  mkTaskFromDBParams "t-3" "owner-U" (of_string "Pay rent") (of_string "monthly")
    (Some 100) false None.

(** A string that does not start with white space. *)
Definition starts_nonspace (s : gostring) : Prop :=
  match s with [] => True | r :: _ => IsSpace r = false end.

(** ** Helper lemmas *)

Lemma sentinel_beq_refl (s : sentinel) : sentinel_beq s s = true.
Proof. destruct s; reflexivity. Qed.

Lemma errors_is_sentinel (s t : sentinel) :
  errors_is (Sentinel s) t = true <-> s = t.
Proof.
  simpl; split; intro H.
  - now apply internal_sentinel_dec_bl.
  - subst; apply sentinel_beq_refl.
Qed.

Lemma owner_differs_spec (t : Task) (o : string) :
  TaskService.owner_differs t o = true <-> owner t <> o.
Proof.
  unfold TaskService.owner_differs; rewrite negb_true_iff.
  rewrite <- String.eqb_neq; reflexivity.
Qed.

(** ** C1: ChangeEmail and the lookup of the new email *)

(** C1. In [UserService.ChangeEmail], once the user is found and the
    password verified, a lookup of the new email that fails with the
    repository's not-found sentinel [ErrUserRepoNotFound] does not let
    the change proceed: the operation returns an error wrapping
    [ErrUserChangeEmailFailed] and never calls [Update], because the
    source compares that error with the service-level [ErrUserNotFound]. *)
Theorem ChangeEmail_repo_not_found_wrapped
    `{Externals} {R : Type} `{UserService.UserRepository R}
    (r : R) (log : list UserService.RepoCall) (uid : string)
    (newEmail password : gostring) (user : User)
    (Hfind : UserService.FindByID r uid = Ok user)
    (Hverify : Verify (passwordHash user) password = None)
    (Hemail : UserService.FindByEmail r newEmail = Err (Sentinel ErrUserRepoNotFound)) :
  UserService.ChangeEmail uid newEmail password (r, log)
  = (Some (Wrapf ErrUserChangeEmailFailed (Sentinel ErrUserRepoNotFound)),
     (r, log ++ [UserService.CallFindByID uid; UserService.CallFindByEmail newEmail])).
Proof.
  unfold UserService.ChangeEmail, UserService.bind, UserService.repoFindByID,
    UserService.repoFindByEmail, UserService.ret; simpl.
  rewrite Hfind, Hverify; simpl.
  rewrite Hemail; simpl.
  now rewrite <- app_assoc.
Qed.

Lemma ChangeEmail_repo_not_found_wrapped_witness :
  UserService.FindByID (users None) "u-alice" = Ok alice
  /\ Verify (passwordHash alice) alice_hash = None
  /\ UserService.FindByEmail (users None) (of_string "bob@x.com")
     = Err (Sentinel ErrUserRepoNotFound)
  /\ UserService.ChangeEmail "u-alice" (of_string "bob@x.com") alice_hash (users None, [])
     = (Some (Wrapf ErrUserChangeEmailFailed (Sentinel ErrUserRepoNotFound)),
        (users None, [] ++ [UserService.CallFindByID "u-alice";
                            UserService.CallFindByEmail (of_string "bob@x.com")])).
Proof.
  refine (conj eq_refl (conj eq_refl (conj eq_refl _))).
  apply (@ChangeEmail_repo_not_found_wrapped PlainExternals UserService.MemRepo
           UserService.MemUserRepository (users None) [] "u-alice"
           (of_string "bob@x.com") alice_hash alice); vm_compute; reflexivity.
Defined.

(** ** C2: the ownership check comes before any mutation *)

Ltac run_task_op Hfind :=
  unfold TaskService.bind, TaskService.repoFindByID, TaskService.ret; simpl;
  rewrite Hfind; simpl.

(** C2. For every mutating operation of the task service, when the task
    is found and its owner differs from the requesting owner, the
    operation returns [ErrTaskAccessDenied], leaves the repository as it
    was and calls nothing after [FindByID] (in particular not [Update]),
    whatever the requested change (an empty title or a past deadline
    included). *)
Theorem task_ops_access_denied
    {R : Type} `{TaskService.TaskRepository R}
    (r : R) (log : list TaskService.RepoCall) (tid ownerID : string) (task : Task)
    (Hfind : TaskService.FindByID r tid = Ok task)
    (Howner : owner task <> ownerID) :
  let denied := (Some (Sentinel ErrTaskAccessDenied),
                 (r, log ++ [TaskService.CallFindByID tid])) in
  (forall new, TaskService.ChangeTitle tid ownerID new (r, log) = denied)
  /\ (forall new, TaskService.ChangeDescription tid ownerID new (r, log) = denied)
  /\ (forall d now, TaskService.SetDeadline tid ownerID d now (r, log) = denied)
  /\ TaskService.RemoveDeadline tid ownerID (r, log) = denied
  /\ (forall now, TaskService.Complete tid ownerID now (r, log) = denied)
  /\ TaskService.Reopen tid ownerID (r, log) = denied.
Proof.
  apply owner_differs_spec in Howner.
  intro denied; subst denied.
  repeat split; intros;
    [unfold TaskService.ChangeTitle | unfold TaskService.ChangeDescription
    | unfold TaskService.SetDeadline | unfold TaskService.RemoveDeadline
    | unfold TaskService.Complete | unfold TaskService.Reopen];
    run_task_op Hfind; rewrite Howner; reflexivity.
Qed.

Lemma task_ops_access_denied_witness :
  TaskService.FindByID tasks "t-1" = Ok open_task
  /\ owner open_task <> "intruder"%string
  /\ TaskService.ChangeTitle "t-1" "intruder" [] (tasks, [])
     = (Some (Sentinel ErrTaskAccessDenied), (tasks, [] ++ [TaskService.CallFindByID "t-1"])).
Proof.
  assert (Hf : TaskService.FindByID tasks "t-1" = Ok open_task) by reflexivity.
  assert (Ho : owner open_task <> "intruder"%string) by (simpl; discriminate).
  refine (conj Hf (conj Ho _)).
  exact (proj1 (task_ops_access_denied tasks [] "t-1" "intruder" open_task Hf Ho) []).
Defined.

(** ** C3: an [Update] that finds no row *)

(** C3 (as stated, refuted). With the user found and the password right,
    an [Update] failing with [ErrUserRepoNotFound] makes [ChangeUsername]
    and [ChangePassword] return the failure wrapped in their failed
    sentinel, not [ErrUserNotFound]. *)
Lemma update_not_found_not_mapped :
  fst (UserService.ChangeUsername "u-alice" (of_string "alicia") alice_hash
         (users (Some (Sentinel ErrUserRepoNotFound)), []))
  = Some (Wrapf ErrUserChangeEmailFailed (Sentinel ErrUserRepoNotFound))
  /\ fst (UserService.ChangePassword "u-alice" alice_hash (of_string "longenough2")
            (users (Some (Sentinel ErrUserRepoNotFound)), []))
     = Some (Wrapf ErrUserChangePasswordFailed (Sentinel ErrUserRepoNotFound))
  /\ Some (Wrapf ErrUserChangeEmailFailed (Sentinel ErrUserRepoNotFound))
     <> Some (Sentinel ErrUserNotFound).
Proof. vm_compute. split; [reflexivity | split; [reflexivity | discriminate]]. Qed.

Ltac run_user_op Hfind :=
  unfold UserService.bind, UserService.repoFindByID, UserService.repoFindByEmail,
    UserService.persist, UserService.repoUpdate, UserService.ret; simpl;
  rewrite Hfind; simpl.

Ltac finish_update :=
  match goal with
  | Hu : snd ?u = Some _ |- _ =>
      unfold UserService.bind; simpl; destruct u as [r' e']; simpl in Hu; subst e'; reflexivity
  end.

(** C3 (amended). When [ChangeUsername], [ChangeEmail] or [ChangePassword]
    reaches the repository's [Update] and it fails with any error [e]
    (the not-found sentinel included), the operation returns [e] wrapped
    in its failed sentinel: [ErrUserChangeEmailFailed] for
    [ChangeUsername] and [ChangeEmail], [ErrUserChangePasswordFailed]
    for [ChangePassword]. *)
Theorem update_failure_wrapped
    `{Externals} {R : Type} `{UserService.UserRepository R}
    (r : R) (log : list UserService.RepoCall) (uid : string) (user user' : User)
    (e : error)
    (Hfind : UserService.FindByID r uid = Ok user)
    (Hupdate : snd (UserService.Update r user') = Some e) :
  (forall newUsername password,
      UserService.is_err (Verify (passwordHash user) password) ErrPassowrdNotMatch = false ->
      UserModel.ChangeUsername user newUsername = Ok user' ->
      fst (UserService.ChangeUsername uid newUsername password (r, log))
      = Some (Wrapf ErrUserChangeEmailFailed e))
  /\ (forall newEmail password e0,
      Verify (passwordHash user) password = None ->
      UserService.FindByEmail r newEmail = Err e0 ->
      errors_is e0 ErrUserNotFound = true ->
      UserModel.ChangeEmail user newEmail = Ok user' ->
      fst (UserService.ChangeEmail uid newEmail password (r, log))
      = Some (Wrapf ErrUserChangeEmailFailed e))
  /\ (forall old new,
      UserModel.ChangePassword user old new = Ok user' ->
      fst (UserService.ChangePassword uid old new (r, log))
      = Some (Wrapf ErrUserChangePasswordFailed e)).
Proof.
  repeat split; intros.
  - unfold UserService.ChangeUsername; run_user_op Hfind.
    rewrite H1, H2; simpl. finish_update.
  - unfold UserService.ChangeEmail; run_user_op Hfind.
    rewrite H1; simpl. rewrite H2; simpl. rewrite H3, H4; simpl. finish_update.
  - unfold UserService.ChangePassword; run_user_op Hfind.
    rewrite H1; simpl. finish_update.
Qed.

Lemma update_failure_wrapped_witness :
  fst (UserService.ChangeUsername "u-alice" (of_string "alicia") alice_hash
         (users (Some (Sentinel ErrUserRepoNotFound)), []))
  = Some (Wrapf ErrUserChangeEmailFailed (Sentinel ErrUserRepoNotFound)).
Proof.
  apply (proj1 (@update_failure_wrapped PlainExternals UserService.MemRepo
           UserService.MemUserRepository (users (Some (Sentinel ErrUserRepoNotFound))) []
           "u-alice" alice
           (mkUser "u-alice" (mkUsername (of_string "alicia")) (email alice)
                   (passwordHash alice))
           (Sentinel ErrUserRepoNotFound)
           ltac:(vm_compute; reflexivity) ltac:(vm_compute; reflexivity)));
    vm_compute; reflexivity.
Defined.

(** ** C4: the deadline constructor at the boundary *)

(** C4. [vo.NewDeadline] accepts a timestamp equal to the clock reading
    taken in its body (the test "Now" of deadline_test.go expects an
    error there), and for any other timestamp rejects it exactly when it
    is before now, keeping the input as [Time()] otherwise. *)
Theorem NewDeadline_accepts_now :
  (forall now, NewDeadline now now = Ok (mkDeadline now))
  /\ (forall value now,
        NewDeadline value now
        = if value <? now then Err (Sentinel ErrDeadlineBeforeNow)
          else Ok (mkDeadline value))
  /\ (forall value now d, NewDeadline value now = Ok d -> Time d = value).
Proof.
  unfold NewDeadline, Before.
  repeat split; intros.
  - now rewrite Z.ltb_irrefl.
  - destruct (value <? now); [discriminate | now inversion H].
Qed.

(** ** C5: the consistency check of [NewTaskFromDB] *)

Lemma NewTitle_not_FromDB (s : gostring) :
  fails_with (NewTitle s) ErrTaskFailedCreateFromDB = false.
Proof.
  unfold NewTitle; destruct (TrimSpace s); [reflexivity|].
  destruct (_ >? _); reflexivity.
Qed.

(** C5. [NewTaskFromDB] fails with the inconsistent-state error
    [ErrTaskFailedCreateFromDB] exactly when [IsCompleted] is true with
    no [CompletedAt] or false with a [CompletedAt]; on consistent input
    it goes on to validate the fields, so a title or description error
    is what it returns. *)
Theorem NewTaskFromDB_inconsistent_state (p : TaskFromDBParams) (now : time) :
  (fails_with (NewTaskFromDB p now) ErrTaskFailedCreateFromDB = true
   <-> (p_IsCompleted p = true /\ p_CompletedAt p = None)
       \/ (p_IsCompleted p = false /\ p_CompletedAt p <> None))
  /\ (p_IsCompleted p = isSome (p_CompletedAt p) ->
      (forall e, NewTitle (p_Title p) = Err e -> NewTaskFromDB p now = Err e)
      /\ (forall e v, NewTitle (p_Title p) = Ok v ->
          NewDescription (p_Description p) = Err e -> NewTaskFromDB p now = Err e)).
Proof.
  unfold NewTaskFromDB.
  destruct p as [pid pown ptitle pdesc pdl pdone pat]; simpl.
  split.
  - destruct pdone, pat as [c|]; simpl.
    + split; [| intros [[_ H] | [H _]]; discriminate].
      pose proof (NewTitle_not_FromDB ptitle) as Ht.
      destruct (NewTitle ptitle); simpl in *; [| congruence].
      destruct (NewDescription pdesc) eqn:Hd; simpl.
      * destruct pdl as [d|]; simpl; [| discriminate].
        unfold NewDeadline; destruct (Before d now); discriminate.
      * unfold NewDescription in Hd; destruct (_ >? _); inversion Hd; discriminate.
    + split; intros _; [left; split; reflexivity | reflexivity].
    + split; intros _; [right; split; [reflexivity | discriminate] | reflexivity].
    + split; [| intros [[H _] | [_ H]]; [discriminate | congruence]].
      pose proof (NewTitle_not_FromDB ptitle) as Ht.
      destruct (NewTitle ptitle); simpl in *; [| congruence].
      destruct (NewDescription pdesc) eqn:Hd; simpl.
      * destruct pdl as [d|]; simpl; [| discriminate].
        unfold NewDeadline; destruct (Before d now); discriminate.
      * unfold NewDescription in Hd; destruct (_ >? _); inversion Hd; discriminate.
  - intro Hc. rewrite Hc.
    replace (isSome pat && negb (isSome pat) || negb (isSome pat) && isSome pat)
      with false by (destruct (isSome pat); reflexivity).
    split.
    + intros e He; now rewrite He.
    + intros e v Ht Hd; now rewrite Ht, Hd.
Qed.

Lemma NewTaskFromDB_inconsistent_state_witness :
  NewTaskFromDB (mkTaskFromDBParams "t-9" "owner-U" (of_string "T") [] None true None) 0
  = Err ErrContradict
  /\ fails_with (NewTaskFromDB (mkTaskFromDBParams "t-9" "owner-U" (of_string "T") []
                                 None true None) 0) ErrTaskFailedCreateFromDB = true.
Proof.
  split; [reflexivity |].
  apply (proj2 (proj1 (NewTaskFromDB_inconsistent_state
                         (mkTaskFromDBParams "t-9" "owner-U" (of_string "T") [] None true None)
                         0))).
  left; split; reflexivity.
Defined.

(** ** C6: [Task.Complete] is idempotent *)

(** C6. A second [Complete] keeps the task completed with the timestamp
    the first call recorded; [Complete] on a completed task changes
    nothing. *)
Theorem Complete_idempotent (t : Task) (now1 now2 : time) :
  isCompleted (TaskModel.Complete (TaskModel.Complete t now1) now2) = true
  /\ completedAt (TaskModel.Complete (TaskModel.Complete t now1) now2)
     = completedAt (TaskModel.Complete t now1)
  /\ TaskModel.Complete (TaskModel.Complete t now1) now2 = TaskModel.Complete t now1
  /\ (isCompleted t = false ->
      completedAt (TaskModel.Complete (TaskModel.Complete t now1) now2) = Some now1)
  /\ (isCompleted t = true -> forall now, TaskModel.Complete t now = t).
Proof.
  destruct t as [i o ti de dl [|] ca]; unfold TaskModel.Complete; simpl;
    repeat split; intros; try reflexivity; discriminate.
Qed.

Lemma Complete_idempotent_witness :
  TaskModel.Complete (TaskModel.Complete open_task 7) 9 = TaskModel.Complete open_task 7
  /\ completedAt (TaskModel.Complete (TaskModel.Complete open_task 7) 9) = Some 7.
Proof.
  split.
  - exact (proj1 (proj2 (proj2 (Complete_idempotent open_task 7 9)))).
  - exact (proj1 (proj2 (proj2 (proj2 (Complete_idempotent open_task 7 9)))) eq_refl).
Defined.

(** ** C7: redundant [Complete] and [Reopen] write nothing *)

(** C7. When the task is found, owned by the requester and already in
    the target state, [TaskService.Complete] (already completed) and
    [TaskService.Reopen] (already open) return nil after the lookup
    alone: [Update] is not called and the repository is unchanged. *)
Theorem complete_reopen_noop
    {R : Type} `{TaskService.TaskRepository R}
    (r : R) (log : list TaskService.RepoCall) (tid ownerID : string) (task : Task)
    (Hfind : TaskService.FindByID r tid = Ok task)
    (Howner : owner task = ownerID) :
  (isCompleted task = true -> forall now,
     TaskService.Complete tid ownerID now (r, log)
     = (None, (r, log ++ [TaskService.CallFindByID tid])))
  /\ (isCompleted task = false ->
     TaskService.Reopen tid ownerID (r, log)
     = (None, (r, log ++ [TaskService.CallFindByID tid]))).
Proof.
  assert (Hd : TaskService.owner_differs task ownerID = false).
  { unfold TaskService.owner_differs; subst; now rewrite String.eqb_refl. }
  split; intros Hc; intros;
    [unfold TaskService.Complete | unfold TaskService.Reopen];
    run_task_op Hfind; rewrite Hd, Hc; reflexivity.
Qed.

Lemma complete_reopen_noop_witness :
  TaskService.Complete "t-2" "owner-U" 300 (tasks, [])
  = (None, (tasks, [] ++ [TaskService.CallFindByID "t-2"])).
Proof.
  exact (proj1 (@complete_reopen_noop TaskService.MemRepo TaskService.MemTaskRepository
                  tasks [] "t-2" "owner-U" done_task eq_refl eq_refl) eq_refl 300).
Defined.

(** ** C8: a failing password verification in [ChangeUsername] *)

(** C8. In [UserService.ChangeUsername], when [Verify] fails with an
    error other than the mismatch sentinel, the operation carries on as
    if the password had been verified: it applies the new username and
    calls [Update], returning only [Update]'s outcome, never the
    verification error. *)
Theorem ChangeUsername_ignores_verify_failure
    `{Externals} {R : Type} `{UserService.UserRepository R}
    (r : R) (log : list UserService.RepoCall) (uid : string)
    (newUsername password : gostring) (user user' : User) (e : error)
    (Hfind : UserService.FindByID r uid = Ok user)
    (Hverify : Verify (passwordHash user) password = Some e)
    (Hother : errors_is e ErrPassowrdNotMatch = false)
    (Hchange : UserModel.ChangeUsername user newUsername = Ok user') :
  UserService.ChangeUsername uid newUsername password (r, log)
  = (match snd (UserService.Update r user') with
     | Some e' => Some (Wrapf ErrUserChangeEmailFailed e')
     | None => None
     end,
     (fst (UserService.Update r user'),
      log ++ [UserService.CallFindByID uid; UserService.CallUpdate user'])).
Proof.
  unfold UserService.ChangeUsername; run_user_op Hfind.
  unfold UserService.is_err; rewrite Hverify, Hother, Hchange; simpl.
  unfold UserService.bind; simpl.
  destruct (UserService.Update r user') as [r' [e'|]]; simpl;
    now rewrite <- app_assoc.
Qed.

Lemma ChangeUsername_ignores_verify_failure_witness :
  UserService.ChangeUsername "u-carol" (of_string "carla") (of_string "anything")
    (users None, [])
  = (None, (UserService.mkMemRepo [alice; carol'] None,
            [] ++ [UserService.CallFindByID "u-carol"; UserService.CallUpdate carol'])).
Proof.
  rewrite (@ChangeUsername_ignores_verify_failure PlainExternals UserService.MemRepo
             UserService.MemUserRepository (users None) [] "u-carol"
             (of_string "carla") (of_string "anything") carol carol'
             (Wrapf ErrPasswordVerifyFailed
                (Opaque "crypto/bcrypt: hashedSecret too short to be a bcrypted password")));
    vm_compute; reflexivity.
Defined.

(** ** C9: an overdue stored task cannot be loaded *)

(** C9. [NewTaskFromDB] passes a stored deadline back through
    [vo.NewDeadline]: a stored task with consistent completion fields,
    a valid title and description and a deadline strictly before now
    fails with [ErrDeadlineBeforeNow]. *)
Theorem NewTaskFromDB_rejects_overdue (p : TaskFromDBParams) (now d : time)
    (v : Title) (w : Description)
    (Hconsistent : p_IsCompleted p = isSome (p_CompletedAt p))
    (Htitle : NewTitle (p_Title p) = Ok v)
    (Hdesc : NewDescription (p_Description p) = Ok w)
    (Hdeadline : p_Deadline p = Some d)
    (Hpast : d < now) :
  NewTaskFromDB p now = Err (Sentinel ErrDeadlineBeforeNow).
Proof.
  unfold NewTaskFromDB.
  rewrite Hconsistent.
  replace (isSome (p_CompletedAt p) && negb (isSome (p_CompletedAt p))
           || negb (isSome (p_CompletedAt p)) && isSome (p_CompletedAt p))
    with false by (destruct (isSome (p_CompletedAt p)); reflexivity).
  rewrite Htitle, Hdesc, Hdeadline.
  unfold NewDeadline, Before.
  apply Z.ltb_lt in Hpast; now rewrite Hpast.
Qed.

Lemma NewTaskFromDB_rejects_overdue_witness :
  NewTaskFromDB stored_overdue 200 = Err (Sentinel ErrDeadlineBeforeNow).
Proof.
  apply (NewTaskFromDB_rejects_overdue stored_overdue 200 100
           (mkTitle (of_string "Pay rent")) (mkDescription (of_string "monthly")));
    vm_compute; reflexivity.
Defined.

(** ** C10: [IsCompleted] if and only if [CompletedAt] is set *)

Lemma task_inv_iff (t : Task) :
  task_inv t <-> isCompleted t = isSome (completedAt t).
Proof.
  unfold task_inv; destruct (isCompleted t), (completedAt t); simpl;
    split; intro H; try reflexivity; try discriminate;
    try (split; intro; congruence).
  - exfalso; now apply (proj1 H).
  - apply (proj2 H); discriminate.
Qed.

(** C10. The constructors [NewTask] and [NewTaskWithDeadline] build
    tasks satisfying the invariant, and from a task satisfying it
    [ChangeTitle], [ChangeDescription], [SetDeadline] (on success or
    failure), [RemoveDeadline], [Complete] and [Reopen] lead to tasks
    satisfying it. *)
Theorem task_invariant_preserved (t : Task) (Hinv : task_inv t) :
  (forall ti de o i, match NewTask ti de o i with Ok t' => task_inv t' | Err _ => True end)
  /\ (forall ti de o dl i now,
        match NewTaskWithDeadline ti de o dl i now with
        | Ok t' => task_inv t' | Err _ => True end)
  /\ (forall s, match TaskModel.ChangeTitle t s with Ok t' => task_inv t' | Err _ => task_inv t end)
  /\ (forall s, match TaskModel.ChangeDescription t s with
                | Ok t' => task_inv t' | Err _ => task_inv t end)
  /\ (forall dl now, match TaskModel.SetDeadline t dl now with
                     | Ok t' => task_inv t' | Err _ => task_inv t end)
  /\ task_inv (TaskModel.RemoveDeadline t)
  /\ (forall now, task_inv (TaskModel.Complete t now))
  /\ task_inv (TaskModel.Reopen t).
Proof.
  rewrite task_inv_iff in Hinv.
  assert (Hnew : forall ti de o i,
            match NewTask ti de o i with Ok t' => task_inv t' | Err _ => True end).
  { intros; unfold NewTask.
    destruct (NewTitle ti); [| exact I].
    destruct (NewDescription de); [| exact I].
    apply task_inv_iff; reflexivity. }
  refine (conj _ (conj _ (conj _ (conj _ (conj _ (conj _ (conj _ _))))))).
  - exact Hnew.
  - intros; unfold NewTaskWithDeadline.
    specialize (Hnew ti de o i).
    destruct (NewTask ti de o i) as [t'|]; [| exact I].
    destruct (NewDeadline dl now); [| exact I].
    rewrite task_inv_iff in *; exact Hnew.
  - intros; unfold TaskModel.ChangeTitle; destruct (NewTitle s);
      apply task_inv_iff; exact Hinv.
  - intros; unfold TaskModel.ChangeDescription; destruct (NewDescription s);
      apply task_inv_iff; exact Hinv.
  - intros; unfold TaskModel.SetDeadline; destruct (NewDeadline dl now);
      apply task_inv_iff; exact Hinv.
  - apply task_inv_iff; exact Hinv.
  - intros n; apply task_inv_iff; unfold TaskModel.Complete.
    destruct (isCompleted t) eqn:Hc; simpl; [| reflexivity].
    rewrite Hc; exact Hinv.
  - apply task_inv_iff; reflexivity.
Qed.

Lemma task_invariant_preserved_witness :
  task_inv done_task /\ task_inv (TaskModel.Reopen done_task).
Proof.
  assert (H : task_inv done_task) by (apply task_inv_iff; reflexivity).
  split; [exact H |].
  exact (proj2 (proj2 (proj2 (proj2 (proj2 (proj2 (proj2
           (task_invariant_preserved done_task H)))))))).
Defined.

(** ** Further properties of the value objects *)

Lemma trim_left_starts (s : gostring) : starts_nonspace (trim_left s).
Proof.
  induction s as [|r s IH]; simpl; [exact I|].
  destruct (IsSpace r) eqn:E; [exact IH | exact E].
Qed.

Lemma trim_left_fixed (s : gostring) : starts_nonspace s -> trim_left s = s.
Proof. destruct s as [|r s]; simpl; [reflexivity | intros E; now rewrite E]. Qed.

Lemma trim_left_idem (s : gostring) : trim_left (trim_left s) = trim_left s.
Proof. apply trim_left_fixed, trim_left_starts. Qed.

Lemma trim_left_suffix (s : gostring) : exists pre, s = pre ++ trim_left s.
Proof.
  induction s as [|r s [pre IH]]; simpl; [now exists [] |].
  destruct (IsSpace r); [exists (r :: pre); simpl; now f_equal | now exists []].
Qed.

(** [strings.TrimSpace] is idempotent. *)
Lemma TrimSpace_idem (s : gostring) : TrimSpace (TrimSpace s) = TrimSpace s.
Proof.
  unfold TrimSpace.
  set (y := trim_left s); set (z := trim_left (rev y)).
  assert (Hz : trim_left (rev z) = rev z).
  { apply trim_left_fixed.
    destruct (trim_left_suffix (rev y)) as [pre Hpre]; fold z in Hpre.
    assert (Hy : y = rev z ++ rev pre)
      by (rewrite <- rev_app_distr, <- Hpre; now rewrite rev_involutive).
    pose proof (trim_left_starts s) as Hs; fold y in Hs.
    destruct (rev z) as [|a w]; [exact I|].
    rewrite Hy in Hs; exact Hs. }
  rewrite Hz, rev_involutive. unfold z at 1. now rewrite trim_left_idem.
Qed.

Lemma TrimSpace_space_cons (r : rune) (s : gostring) :
  IsSpace r = true -> TrimSpace (r :: s) = TrimSpace s.
Proof. intro H; unfold TrimSpace; simpl; now rewrite H. Qed.

Lemma NewTitle_ok_value (s : gostring) (v : Title) :
  NewTitle s = Ok v -> v = mkTitle (TrimSpace s).
Proof.
  unfold NewTitle; destruct (TrimSpace s); [discriminate|].
  destruct (_ >? _); intro H; inversion H; reflexivity.
Qed.



(** [vo.NewUsername] accepts exactly the strings of 2 to 30 runes, keeping
    them as given (no trimming); a one-rune string is too short, not
    empty; more than 30 runes is too long. *)
Theorem NewUsername_bounds (v : gostring) :
  (forall u, NewUsername v = Ok u ->
     username_value u = v /\ 2 <= rune_count v <= 30)
  /\ (2 <= rune_count v <= 30 -> NewUsername v = Ok (mkUsername v))
  /\ (rune_count v = 1 -> NewUsername v = Err (Sentinel ErrUsernameTooShort))
  /\ (30 < rune_count v -> NewUsername v = Err (Sentinel ErrUsernameTooLong)).
Proof.
  unfold NewUsername, UsernameMinLength, UsernameMaxLength.
  destruct v as [|r w] eqn:Ev.
  - unfold rune_count; simpl.
    repeat split; intros; try discriminate; lia.
  - rewrite <- Ev.
    repeat split; intros.
    + destruct (rune_count v <? 2) eqn:E1; [discriminate|].
      destruct (rune_count v >? 30) eqn:E2; [discriminate|].
      now inversion H.
    + destruct (rune_count v <? 2) eqn:E1; [discriminate|].
      destruct (rune_count v >? 30) eqn:E2; [discriminate|].
      apply Z.ltb_ge in E1; lia.
    + destruct (rune_count v <? 2) eqn:E1; [discriminate|].
      destruct (rune_count v >? 30) eqn:E2; [discriminate|].
      apply Z.ltb_ge in E1. rewrite Z.gtb_ltb in E2; apply Z.ltb_ge in E2. lia.
    + destruct H as [H1 H2].
      replace (rune_count v <? 2) with false by (symmetry; apply Z.ltb_ge; lia).
      replace (rune_count v >? 30) with false
        by (symmetry; rewrite Z.gtb_ltb; apply Z.ltb_ge; lia).
      reflexivity.
    + now rewrite H.
    + replace (rune_count v <? 2) with false by (symmetry; apply Z.ltb_ge; lia).
      replace (rune_count v >? 30) with true
        by (symmetry; rewrite Z.gtb_ltb; apply Z.ltb_lt; lia).
      reflexivity.
Qed.

(** [vo.NewTitle] stores the trimmed text, between 1 and 50 runes;
    validating a stored title again gives it back unchanged, and leading
    white space never changes the outcome. *)
Theorem NewTitle_trimmed_roundtrip (s : gostring) :
  (forall v, NewTitle s = Ok v ->
     title_value v = TrimSpace s /\ title_value v <> []
     /\ rune_count (title_value v) <= 50
     /\ NewTitle (title_value v) = Ok v)
  /\ (forall r, IsSpace r = true -> NewTitle (r :: s) = NewTitle s)
  /\ (TrimSpace s = [] -> NewTitle s = Err (Sentinel ErrTitleEmpty)).
Proof.
  repeat split; intros.
  - unfold NewTitle in H.
    destruct (TrimSpace s) eqn:E; [discriminate|].
    destruct (_ >? _); inversion H; reflexivity.
  - unfold NewTitle in H.
    destruct (TrimSpace s) eqn:E; [discriminate|].
    destruct (_ >? _); inversion H; discriminate.
  - unfold NewTitle in H.
    destruct (TrimSpace s) as [|a w] eqn:E; [discriminate|].
    destruct (rune_count (a :: w) >? TitleMaxLength) eqn:E2; inversion H; subst; simpl.
    unfold TitleMaxLength in E2; rewrite Z.gtb_ltb in E2; apply Z.ltb_ge in E2; exact E2.
  - unfold NewTitle in *.
    destruct (TrimSpace s) as [|a w] eqn:E; [discriminate|].
    destruct (rune_count (a :: w) >? TitleMaxLength) eqn:E2; inversion H; subst; simpl.
    rewrite <- E, TrimSpace_idem, E, E2; reflexivity.
  - unfold NewTitle; now rewrite TrimSpace_space_cons.
  - unfold NewTitle; now rewrite H.
Qed.

(** [vo.NewEmail] stores the trimmed address, never empty; validating a
    stored address again gives it back unchanged; a blank string is
    [ErrEmailEmpty] before any parsing. *)
Theorem NewEmail_trimmed_roundtrip `{Externals} (s : gostring) :
  (forall e, NewEmail s = Ok e ->
     email_value e = TrimSpace s /\ email_value e <> []
     /\ ParseAddress (email_value e) = None
     /\ NewEmail (email_value e) = Ok e)
  /\ (TrimSpace s = [] -> NewEmail s = Err (Sentinel ErrEmailEmpty)).
Proof.
  repeat split; intros.
  - unfold NewEmail in H0.
    destruct (TrimSpace s) eqn:E; [discriminate|].
    destruct (ParseAddress _); inversion H0; reflexivity.
  - unfold NewEmail in H0.
    destruct (TrimSpace s) eqn:E; [discriminate|].
    destruct (ParseAddress _); inversion H0; discriminate.
  - unfold NewEmail in H0.
    destruct (TrimSpace s) eqn:E; [discriminate|].
    destruct (ParseAddress _) eqn:P; inversion H0; subst; exact P.
  - unfold NewEmail in *.
    destruct (TrimSpace s) as [|a w] eqn:E; [discriminate|].
    destruct (ParseAddress (a :: w)) eqn:P; inversion H0; subst; simpl.
    rewrite <- E, TrimSpace_idem, E, P; reflexivity.
  - unfold NewEmail; now rewrite H0.
Qed.

Lemma byte_len_ascii (s : gostring) : isASCII s = true -> byte_len s = rune_count s.
Proof.
  unfold rune_count; induction s as [|r s IH]; simpl; [reflexivity|].
  rewrite andb_true_iff; intros [Hr Hs].
  rewrite IH by exact Hs. unfold utf8_width.
  apply Z.leb_le in Hr. replace (r <? 128) with true by (symmetry; apply Z.ltb_lt; lia).
  lia.
Qed.

(** [vo.NewPassword] rejects a non-empty string with a non-ASCII rune as
    invalid whatever its length; for ASCII text, where bytes and runes
    agree, it rejects fewer than 8 or more than 72 characters and
    otherwise stores the bcrypt hash (or reports a hashing failure). *)
Theorem NewPassword_rules `{Externals} (raw : gostring) (Hne : raw <> []) :
  (isASCII raw = false -> NewPassword raw = Err (Sentinel ErrPasswordInvalid))
  /\ (isASCII raw = true -> rune_count raw < 8 ->
      NewPassword raw = Err (Sentinel ErrPasswordTooShort))
  /\ (isASCII raw = true -> 72 < rune_count raw ->
      NewPassword raw = Err (Sentinel ErrPasswordTooLong))
  /\ (isASCII raw = true -> 8 <= rune_count raw <= 72 ->
      NewPassword raw = match GenerateFromPassword raw with
                        | Err _ => Err (Sentinel ErrPasswordHashing)
                        | Ok h => Ok (mkPassword h)
                        end).
Proof.
  unfold NewPassword, PasswordMinLength, PasswordMaxLength.
  destruct raw as [|r w]; [congruence|].
  set (raw := r :: w).
  repeat split; intros Ha; try intros Hl; rewrite Ha; simpl negb; cbv iota;
    try reflexivity; rewrite (byte_len_ascii raw Ha).
  - replace (rune_count raw <? 8) with true by (symmetry; apply Z.ltb_lt; lia); reflexivity.
  - replace (rune_count raw <? 8) with false by (symmetry; apply Z.ltb_ge; lia).
    replace (rune_count raw >? 72) with true
      by (symmetry; rewrite Z.gtb_ltb; apply Z.ltb_lt; lia); reflexivity.
  - replace (rune_count raw <? 8) with false by (symmetry; apply Z.ltb_ge; lia).
    replace (rune_count raw >? 72) with false
      by (symmetry; rewrite Z.gtb_ltb; apply Z.ltb_ge; lia); reflexivity.
Qed.

Lemma NewPassword_rules_witness :
  NewPassword (of_string "short") = Err (Sentinel ErrPasswordTooShort).
Proof.
  exact (proj1 (proj2 (@NewPassword_rules PlainExternals (of_string "short")
                         ltac:(discriminate)))
           eq_refl ltac:(vm_compute; reflexivity)).
Defined.


(** With a hasher whose hashes verify against their own input (bcrypt's
    contract), a password built by [vo.NewPassword] verifies against
    the raw text it was built from. *)
Theorem NewPassword_Verify_roundtrip `{Externals} (raw : gostring)
    (Hbcrypt : forall h, GenerateFromPassword raw = Ok h ->
                         CompareHashAndPassword h raw = None)
    (p : Password) (Hp : NewPassword raw = Ok p) :
  Verify p raw = None.
Proof.
  unfold NewPassword in Hp.
  destruct raw as [|r w]; [discriminate|].
  destruct (negb _); [discriminate|].
  destruct (_ <? _); [discriminate|].
  destruct (_ >? _); [discriminate|].
  destruct (GenerateFromPassword (r :: w)) as [h|] eqn:G; [|discriminate].
  inversion Hp; subst; unfold Verify; simpl.
  now rewrite (Hbcrypt h eq_refl).
Qed.

Lemma NewPassword_Verify_roundtrip_witness :
  NewPassword alice_hash = Ok (mkPassword alice_hash)
  /\ Verify (mkPassword alice_hash) alice_hash = None.
Proof.
  assert (Hp : NewPassword alice_hash = Ok (mkPassword alice_hash))
    by (vm_compute; reflexivity).
  split; [exact Hp|].
  exact (@NewPassword_Verify_roundtrip PlainExternals alice_hash
           (fun h G => match G in _ = y return
                         match y with Ok h' => CompareHashAndPassword h' alice_hash = None
                                    | Err _ => True end
                       with eq_refl => eq_refl end)
           (mkPassword alice_hash) Hp).
Defined.

(** ** Further properties of the user entity *)

(** [User.ChangePassword] checks the old password before looking at the
    new one: any verification error is returned as it is, whatever the
    new password; on success only the hash changes, to the hash of the
    new password, and the old password had verified. *)
Theorem User_ChangePassword_atomic `{Externals} (u : User) (old new : gostring) :
  (forall e, Verify (passwordHash u) old = Some e -> UserModel.ChangePassword u old new = Err e)
  /\ (forall u', UserModel.ChangePassword u old new = Ok u' ->
        Verify (passwordHash u) old = None
        /\ NewPassword new = Ok (passwordHash u')
        /\ user_id u' = user_id u /\ username u' = username u /\ email u' = email u).
Proof.
  unfold UserModel.ChangePassword; split.
  - intros e He; now rewrite He.
  - intros u' Hc.
    destruct (Verify (passwordHash u) old); [discriminate|].
    destruct (NewPassword new) as [p|]; [|discriminate].
    inversion Hc; subst; simpl; repeat split; reflexivity.
Qed.


(** ** Further properties of the user service *)

(** [UserService.ChangeEmail] rejects a new email that the repository's
    [FindByEmail] finds, whoever holds it, the requesting user included:
    changing one's email to one's own current email is
    [ErrEmailAlreadyTaken], and [Update] is not called. *)
Theorem ChangeEmail_taken_even_by_self
    `{Externals} {R : Type} `{UserService.UserRepository R}
    (r : R) (log : list UserService.RepoCall) (uid : string)
    (newEmail password : gostring) (user holder : User)
    (Hfind : UserService.FindByID r uid = Ok user)
    (Hverify : Verify (passwordHash user) password = None)
    (Hemail : UserService.FindByEmail r newEmail = Ok holder) :
  UserService.ChangeEmail uid newEmail password (r, log)
  = (Some (Sentinel ErrEmailAlreadyTaken),
     (r, log ++ [UserService.CallFindByID uid; UserService.CallFindByEmail newEmail])).
Proof.
  unfold UserService.ChangeEmail; run_user_op Hfind.
  rewrite Hverify; simpl. rewrite Hemail; simpl. now rewrite <- app_assoc.
Qed.

Lemma ChangeEmail_taken_even_by_self_witness :
  UserService.ChangeEmail "u-alice" (of_string "alice@x.com") alice_hash (users None, [])
  = (Some (Sentinel ErrEmailAlreadyTaken),
     (users None, [] ++ [UserService.CallFindByID "u-alice";
                         UserService.CallFindByEmail (of_string "alice@x.com")])).
Proof.
  apply (@ChangeEmail_taken_even_by_self PlainExternals UserService.MemRepo
           UserService.MemUserRepository (users None) [] "u-alice"
           (of_string "alice@x.com") alice_hash alice alice);
    vm_compute; reflexivity.
Defined.

(** A wrong password ([ErrPassowrdNotMatch] from [Verify]) stops
    [ChangeUsername] and [ChangeEmail] with [ErrUserUnauthorized] right
    after the lookup, while [ChangePassword] returns
    [ErrPassowrdNotMatch] itself; none of them calls [Update]. *)
Theorem wrong_password_stops_user_ops
    `{Externals} {R : Type} `{UserService.UserRepository R}
    (r : R) (log : list UserService.RepoCall) (uid : string) (user : User)
    (password : gostring)
    (Hfind : UserService.FindByID r uid = Ok user)
    (Hverify : Verify (passwordHash user) password = Some (Sentinel ErrPassowrdNotMatch)) :
  let stopped e := (Some e, (r, log ++ [UserService.CallFindByID uid])) in
  (forall newUsername, UserService.ChangeUsername uid newUsername password (r, log)
                       = stopped (Sentinel ErrUserUnauthorized))
  /\ (forall newEmail, UserService.ChangeEmail uid newEmail password (r, log)
                       = stopped (Sentinel ErrUserUnauthorized))
  /\ (forall new, UserService.ChangePassword uid password new (r, log)
                  = stopped (Sentinel ErrPassowrdNotMatch)).
Proof.
  intro stopped; subst stopped.
  refine (conj _ (conj _ _)); intros.
  - unfold UserService.ChangeUsername; run_user_op Hfind.
    unfold UserService.is_err; rewrite Hverify; reflexivity.
  - unfold UserService.ChangeEmail; run_user_op Hfind.
    unfold UserService.is_err; rewrite Hverify; reflexivity.
  - unfold UserService.ChangePassword; run_user_op Hfind.
    unfold UserModel.ChangePassword; rewrite Hverify; reflexivity.
Qed.

Lemma wrong_password_stops_user_ops_witness :
  UserService.ChangePassword "u-alice" (of_string "wrong-pass") (of_string "longenough2")
    (users None, [])
  = (Some (Sentinel ErrPassowrdNotMatch), (users None, [] ++ [UserService.CallFindByID "u-alice"])).
Proof.
  exact (proj2 (proj2 (@wrong_password_stops_user_ops PlainExternals UserService.MemRepo
           UserService.MemUserRepository (users None) [] "u-alice" alice
           (of_string "wrong-pass") eq_refl eq_refl)) (of_string "longenough2")).
Defined.

(** A failed lookup by id ends the three user-service changes with no
    further call: the repository's not-found becomes [ErrUserNotFound];
    any other error is wrapped in [ErrUserChangeEmailFailed] (for
    [ChangeUsername] as for [ChangeEmail]) or in
    [ErrUserChangePasswordFailed]. *)
Theorem user_ops_lookup_failure
    `{Externals} {R : Type} `{UserService.UserRepository R}
    (r : R) (log : list UserService.RepoCall) (uid : string) (e : error)
    (Hfind : UserService.FindByID r uid = Err e) :
  let out tag := (Some (if errors_is e ErrUserRepoNotFound then Sentinel ErrUserNotFound
                        else Wrapf tag e),
                  (r, log ++ [UserService.CallFindByID uid])) in
  (forall n p, UserService.ChangeUsername uid n p (r, log) = out ErrUserChangeEmailFailed)
  /\ (forall n p, UserService.ChangeEmail uid n p (r, log) = out ErrUserChangeEmailFailed)
  /\ (forall o n, UserService.ChangePassword uid o n (r, log) = out ErrUserChangePasswordFailed).
Proof.
  intro out; subst out.
  refine (conj _ (conj _ _)); intros;
    [unfold UserService.ChangeUsername | unfold UserService.ChangeEmail
    | unfold UserService.ChangePassword];
    run_user_op Hfind; unfold UserService.lookup_failed;
    destruct (errors_is e ErrUserRepoNotFound); reflexivity.
Qed.

Lemma user_ops_lookup_failure_witness :
  UserService.ChangeUsername "u-nobody" (of_string "bob") alice_hash (users None, [])
  = (Some (Sentinel ErrUserNotFound), (users None, [] ++ [UserService.CallFindByID "u-nobody"])).
Proof.
  exact (proj1 (@user_ops_lookup_failure PlainExternals UserService.MemRepo
           UserService.MemUserRepository (users None) [] "u-nobody"
           (Sentinel ErrUserRepoNotFound) eq_refl) (of_string "bob") alice_hash).
Defined.

Ltac run_accounts :=
  unfold UserAccounts.bind, UserAccounts.repoFindByID, UserAccounts.repoFindByEmail,
    UserAccounts.repoCreate, UserAccounts.repoDelete, UserAccounts.ret; simpl.

(** [UserService.Register] returns a validation error of [NewUser] as
    it is, without touching the repository; otherwise it creates the
    user once, and maps a failing [Create] to [ErrUserExists] when the
    repository reports [ErrUserRepoExists] and to the bare
    [ErrUserRegisterFailed] (the cause is dropped) for anything else. *)
Theorem Register_outcomes
    `{Externals} {R : Type} `{UserService.UserRepository R} `{UserAccounts.UserStore R}
    (r : R) (log : list UserAccounts.RepoCall) (username email password : gostring)
    (fid : string) :
  (forall e, NewUser username email password fid = Err e ->
     UserAccounts.Register username email password fid (r, log) = (Some e, (r, log)))
  /\ (forall u, NewUser username email password fid = Ok u ->
     UserAccounts.Register username email password fid (r, log)
     = (match snd (UserAccounts.Create r u) with
        | None => None
        | Some e => Some (Sentinel (if errors_is e ErrUserRepoExists then ErrUserExists
                                    else ErrUserRegisterFailed))
        end,
        (fst (UserAccounts.Create r u), log ++ [UserAccounts.CallCreate u]))).
Proof.
  unfold UserAccounts.Register; split; intros.
  - now rewrite H2.
  - rewrite H2; run_accounts.
    destruct (UserAccounts.Create r u) as [r' [e|]]; simpl; [|reflexivity].
    destruct (errors_is e ErrUserRepoExists); reflexivity.
Qed.

Lemma Register_outcomes_witness :
  UserAccounts.Register (of_string "alice2") (of_string " alice@x.com ")
    (of_string "longenough1") "u-new" (users None, [])
  = (Some (Sentinel ErrUserExists),
     (users None, [UserAccounts.CallCreate
        (mkUser "u-new" (mkUsername (of_string "alice2")) (mkEmail (of_string "alice@x.com"))
                (mkPassword (of_string "longenough1")))])).
Proof.
  rewrite (proj2 (@Register_outcomes PlainExternals UserService.MemRepo
             UserService.MemUserRepository MemUserStore (users None) []
             (of_string "alice2") (of_string " alice@x.com ") (of_string "longenough1")
             "u-new")
             (mkUser "u-new" (mkUsername (of_string "alice2")) (mkEmail (of_string "alice@x.com"))
                     (mkPassword (of_string "longenough1")))
             ltac:(vm_compute; reflexivity)).
  vm_compute; reflexivity.
Defined.

(** [UserService.Login] only reads: it makes the single call [FindByEmail]
    and leaves the repository as it was. It returns a token only when the
    user was found and the password verified, and then the token is the
    one generated for that user's id; an unknown email is
    [ErrUserNotFound] and a wrong password [ErrUserUnauthorized]. *)
Theorem Login_outcomes
    `{Externals} `{UserAccounts.TokenProvider} {R : Type} `{UserService.UserRepository R}
    (r : R) (log : list UserAccounts.RepoCall) (email password : gostring) :
  snd (UserAccounts.Login email password (r, log))
    = (r, log ++ [UserAccounts.CallFindByEmail email])
  /\ (forall token, fst (UserAccounts.Login email password (r, log)) = Ok token ->
        exists user, UserService.FindByEmail r email = Ok user
          /\ Verify (passwordHash user) password = None
          /\ UserAccounts.Generate (user_id user) = Ok token)
  /\ (UserService.FindByEmail r email = Err (Sentinel ErrUserRepoNotFound) ->
        fst (UserAccounts.Login email password (r, log)) = Err (Sentinel ErrUserNotFound))
  /\ (forall user, UserService.FindByEmail r email = Ok user ->
        Verify (passwordHash user) password = Some (Sentinel ErrPassowrdNotMatch) ->
        fst (UserAccounts.Login email password (r, log)) = Err (Sentinel ErrUserUnauthorized)).
Proof.
  unfold UserAccounts.Login; run_accounts.
  refine (conj _ (conj _ (conj _ _))); intros.
  - destruct (UserService.FindByEmail r email) as [user|e]; simpl.
    + unfold UserService.is_err.
      destruct (Verify (passwordHash user) password) as [e|]; simpl.
      * destruct (errors_is e ErrPassowrdNotMatch); reflexivity.
      * destruct (UserAccounts.Generate (user_id user)); reflexivity.
    + destruct (errors_is e ErrUserRepoNotFound); reflexivity.
  - destruct (UserService.FindByEmail r email) as [user|e]; simpl in H2.
    + unfold UserService.is_err in H2.
      destruct (Verify (passwordHash user) password) as [e|] eqn:V; simpl in H2.
      * destruct (errors_is e ErrPassowrdNotMatch); discriminate.
      * destruct (UserAccounts.Generate (user_id user)) eqn:G; inversion H2; subst.
        exists user; now repeat split.
    + destruct (errors_is e ErrUserRepoNotFound); discriminate.
  - now rewrite H2.
  - rewrite H2; simpl. unfold UserService.is_err; now rewrite H3.
Qed.

Lemma Login_outcomes_witness :
  exists user, UserService.FindByEmail (users None) (of_string "alice@x.com") = Ok user
    /\ Verify (passwordHash user) alice_hash = None
    /\ UserAccounts.Generate (user_id user) = Ok "token:u-alice"%string.
Proof.
  apply (proj1 (proj2 (@Login_outcomes PlainExternals EchoTokenProvider UserService.MemRepo
                         UserService.MemUserRepository (users None) []
                         (of_string "alice@x.com") alice_hash)) "token:u-alice"%string).
  vm_compute; reflexivity.
Defined.

(** [UserService.Delete] deletes only after the password verified: on
    any verification error it stops after the lookup ([ErrUserUnauthorized]
    for a mismatch, a wrapped [ErrUserDeleteFailed] otherwise); after a
    successful verification it calls the repository's [Delete] once and
    wraps any failure of it, a missing row included, in
    [ErrUserDeleteFailed]. *)
Theorem Delete_outcomes
    `{Externals} {R : Type} `{UserService.UserRepository R} `{UserAccounts.UserStore R}
    (r : R) (log : list UserAccounts.RepoCall) (uid : string) (password : gostring)
    (user : User) (Hfind : UserService.FindByID r uid = Ok user) :
  (forall e, Verify (passwordHash user) password = Some e ->
     UserAccounts.DeleteUser uid password (r, log)
     = (Some (if errors_is e ErrPassowrdNotMatch then Sentinel ErrUserUnauthorized
              else Wrapf ErrUserDeleteFailed e),
        (r, log ++ [UserAccounts.CallFindByID uid])))
  /\ (Verify (passwordHash user) password = None ->
     UserAccounts.DeleteUser uid password (r, log)
     = (match snd (UserAccounts.Delete r uid) with
        | Some e => Some (Wrapf ErrUserDeleteFailed e)
        | None => None
        end,
        (fst (UserAccounts.Delete r uid),
         log ++ [UserAccounts.CallFindByID uid; UserAccounts.CallDelete uid]))).
Proof.
  unfold UserAccounts.DeleteUser; run_accounts; rewrite Hfind; simpl.
  split; intros.
  - unfold UserService.is_err; rewrite H2.
    destruct (errors_is e ErrPassowrdNotMatch); reflexivity.
  - unfold UserService.is_err; rewrite H2; simpl.
    destruct (UserAccounts.Delete r uid) as [r' [e|]]; simpl; now rewrite <- app_assoc.
Qed.

Lemma Delete_outcomes_witness :
  UserAccounts.DeleteUser "u-alice" (of_string "nope") (users None, [])
  = (Some (Sentinel ErrUserUnauthorized), (users None, [] ++ [UserAccounts.CallFindByID "u-alice"])).
Proof.
  rewrite (proj1 (@Delete_outcomes PlainExternals UserService.MemRepo
             UserService.MemUserRepository MemUserStore (users None) [] "u-alice"
             (of_string "nope") alice eq_refl) (Sentinel ErrPassowrdNotMatch) eq_refl).
  reflexivity.
Defined.

(** ** Further properties of the task service *)

Lemma task_persist_spec {R : Type} `{TaskService.TaskRepository R}
    (tag : sentinel) (t : Task) (r : R) (log : list TaskService.RepoCall) :
  TaskService.persist tag t (r, log)
  = (match snd (TaskService.Update r t) with
     | Some e => Some (Wrapf tag e)
     | None => None
     end, (fst (TaskService.Update r t), log ++ [TaskService.CallUpdate t])).
Proof.
  unfold TaskService.persist, TaskService.bind, TaskService.repoUpdate, TaskService.ret; simpl.
  destruct (TaskService.Update r t) as [r' [e|]]; reflexivity.
Qed.

(** A failed [FindByID] ends every task operation with no further call:
    the repository's [ErrTaskRepoNotFound] becomes [ErrTaskNotFound], any
    other error is wrapped in the operation's failed sentinel. *)
Theorem task_ops_lookup_failure
    {R : Type} `{TaskService.TaskRepository R}
    (r : R) (log : list TaskService.RepoCall) (tid ownerID : string) (e : error)
    (Hfind : TaskService.FindByID r tid = Err e) :
  let out tag := (Some (if errors_is e ErrTaskRepoNotFound then Sentinel ErrTaskNotFound
                        else Wrapf tag e),
                  (r, log ++ [TaskService.CallFindByID tid])) in
  (forall n, TaskService.ChangeTitle tid ownerID n (r, log) = out ErrTaskChangeTitleFailed)
  /\ (forall n, TaskService.ChangeDescription tid ownerID n (r, log)
                = out ErrTaskChangeDescriptionFailed)
  /\ (forall d now, TaskService.SetDeadline tid ownerID d now (r, log)
                    = out ErrTaskSetDeadlineFailed)
  /\ TaskService.RemoveDeadline tid ownerID (r, log) = out ErrTaskRemoveDeadlineFailed
  /\ (forall now, TaskService.Complete tid ownerID now (r, log) = out ErrTaskCompleteFailed)
  /\ TaskService.Reopen tid ownerID (r, log) = out ErrTaskReopenFailed.
Proof.
  intro out; subst out.
  refine (conj _ (conj _ (conj _ (conj _ (conj _ _))))); intros;
    [unfold TaskService.ChangeTitle | unfold TaskService.ChangeDescription
    | unfold TaskService.SetDeadline | unfold TaskService.RemoveDeadline
    | unfold TaskService.Complete | unfold TaskService.Reopen];
    run_task_op Hfind; unfold TaskService.lookup_failed;
    destruct (errors_is e ErrTaskRepoNotFound); reflexivity.
Qed.

Lemma task_ops_lookup_failure_witness :
  TaskService.Reopen "t-404" "owner-U" (tasks, [])
  = (Some (Sentinel ErrTaskNotFound), (tasks, [] ++ [TaskService.CallFindByID "t-404"])).
Proof.
  exact (proj2 (proj2 (proj2 (proj2 (proj2
           (@task_ops_lookup_failure TaskService.MemRepo TaskService.MemTaskRepository
              tasks [] "t-404" "owner-U" (Sentinel ErrTaskRepoNotFound) eq_refl)))))).
Defined.

(** For the owner, a change the entity rejects (an invalid title or
    description, a past deadline) is returned as it is, unwrapped, and
    nothing is written: [Update] is not called. *)
Theorem task_ops_validation_failure
    {R : Type} `{TaskService.TaskRepository R}
    (r : R) (log : list TaskService.RepoCall) (tid ownerID : string) (task : Task)
    (Hfind : TaskService.FindByID r tid = Ok task)
    (Howner : owner task = ownerID) :
  let rejected e := (Some e, (r, log ++ [TaskService.CallFindByID tid])) in
  (forall n e, TaskModel.ChangeTitle task n = Err e ->
     TaskService.ChangeTitle tid ownerID n (r, log) = rejected e)
  /\ (forall n e, TaskModel.ChangeDescription task n = Err e ->
     TaskService.ChangeDescription tid ownerID n (r, log) = rejected e)
  /\ (forall d now e, TaskModel.SetDeadline task d now = Err e ->
     TaskService.SetDeadline tid ownerID d now (r, log) = rejected e).
Proof.
  assert (Hd : TaskService.owner_differs task ownerID = false).
  { unfold TaskService.owner_differs; subst; now rewrite String.eqb_refl. }
  intro rejected; subst rejected.
  refine (conj _ (conj _ _)); intros;
    [unfold TaskService.ChangeTitle | unfold TaskService.ChangeDescription
    | unfold TaskService.SetDeadline];
    run_task_op Hfind; rewrite Hd, H0; reflexivity.
Qed.

Lemma task_ops_validation_failure_witness :
  TaskService.ChangeTitle "t-1" "owner-U" (of_string "   ") (tasks, [])
  = (Some (Sentinel ErrTitleEmpty), (tasks, [] ++ [TaskService.CallFindByID "t-1"])).
Proof.
  exact (proj1 (@task_ops_validation_failure TaskService.MemRepo TaskService.MemTaskRepository
           tasks [] "t-1" "owner-U" open_task eq_refl eq_refl)
           (of_string "   ") (Sentinel ErrTitleEmpty) eq_refl).
Defined.

(** For the owner, an accepted change is written with exactly one
    [Update] of the changed task, and the operation returns nil or the
    [Update] failure wrapped in its failed sentinel. *)
Theorem task_ops_persist
    {R : Type} `{TaskService.TaskRepository R}
    (r : R) (log : list TaskService.RepoCall) (tid ownerID : string) (task : Task)
    (Hfind : TaskService.FindByID r tid = Ok task)
    (Howner : owner task = ownerID) :
  let written tag t' :=
    (match snd (TaskService.Update r t') with
     | Some e => Some (Wrapf tag e)
     | None => None
     end,
     (fst (TaskService.Update r t'),
      log ++ [TaskService.CallFindByID tid; TaskService.CallUpdate t'])) in
  (forall n t', TaskModel.ChangeTitle task n = Ok t' ->
     TaskService.ChangeTitle tid ownerID n (r, log) = written ErrTaskChangeTitleFailed t')
  /\ (forall n t', TaskModel.ChangeDescription task n = Ok t' ->
     TaskService.ChangeDescription tid ownerID n (r, log)
     = written ErrTaskChangeDescriptionFailed t')
  /\ (forall d now t', TaskModel.SetDeadline task d now = Ok t' ->
     TaskService.SetDeadline tid ownerID d now (r, log) = written ErrTaskSetDeadlineFailed t')
  /\ TaskService.RemoveDeadline tid ownerID (r, log)
     = written ErrTaskRemoveDeadlineFailed (TaskModel.RemoveDeadline task)
  /\ (isCompleted task = false -> forall now,
     TaskService.Complete tid ownerID now (r, log)
     = written ErrTaskCompleteFailed (TaskModel.Complete task now))
  /\ (isCompleted task = true ->
     TaskService.Reopen tid ownerID (r, log)
     = written ErrTaskReopenFailed (TaskModel.Reopen task)).
Proof.
  assert (Hd : TaskService.owner_differs task ownerID = false).
  { unfold TaskService.owner_differs; subst; now rewrite String.eqb_refl. }
  intro written; subst written.
  refine (conj _ (conj _ (conj _ (conj _ (conj _ _))))); intros;
    [unfold TaskService.ChangeTitle | unfold TaskService.ChangeDescription
    | unfold TaskService.SetDeadline | unfold TaskService.RemoveDeadline
    | unfold TaskService.Complete | unfold TaskService.Reopen];
    run_task_op Hfind; rewrite Hd; try rewrite H0; simpl;
    rewrite task_persist_spec; simpl; now rewrite <- app_assoc.
Qed.

Lemma task_ops_persist_witness :
  fst (TaskService.Complete "t-1" "owner-U" 42 (tasks, [])) = None
  /\ TaskService.FindByID (fst (snd (TaskService.Complete "t-1" "owner-U" 42 (tasks, [])))) "t-1"
     = Ok (TaskModel.Complete open_task 42).
Proof.
  rewrite (proj1 (proj2 (proj2 (proj2 (proj2
             (@task_ops_persist TaskService.MemRepo TaskService.MemTaskRepository
                tasks [] "t-1" "owner-U" open_task eq_refl eq_refl)))))
             eq_refl 42).
  vm_compute; split; reflexivity.
Defined.

(** ** Further properties of the task entity *)

(** [Complete] and [Reopen] touch only the completion fields; reopening
    forgets any completion (reopening a completed task is the same as
    reopening it directly, and reopening twice is reopening once); a
    reopened task completes again at the new time. *)
Theorem task_completion_lifecycle (t : Task) (n m : time) :
  TaskModel.Reopen (TaskModel.Complete t n) = TaskModel.Reopen t
  /\ TaskModel.Reopen (TaskModel.Reopen t) = TaskModel.Reopen t
  /\ isCompleted (TaskModel.Complete (TaskModel.Reopen t) m) = true
  /\ completedAt (TaskModel.Complete (TaskModel.Reopen t) m) = Some m
  /\ (forall t', (t' = TaskModel.Complete t n \/ t' = TaskModel.Reopen t) ->
        id t' = id t /\ owner t' = owner t /\ title t' = title t
        /\ description t' = description t /\ deadline t' = deadline t).
Proof.
  destruct t as [i o ti de dl c ca].
  refine (conj _ (conj _ (conj _ (conj _ _)))).
  - destruct c; reflexivity.
  - reflexivity.
  - reflexivity.
  - reflexivity.
  - intros t' [-> | ->]; [destruct c|]; repeat split.
Qed.

(** [Task.IsOverdue] holds exactly when there is a deadline strictly
    before [now] and the task is open; so a completed task, a task
    without deadline, and a task whose deadline was just set (at the
    same clock reading) are never overdue, and reopening makes the
    deadline alone decide. *)
Theorem task_IsOverdue_spec (t : Task) (now : time) :
  (TaskModel.IsOverdue t now = true
   <-> exists d, deadline t = Some d /\ Time d < now /\ isCompleted t = false)
  /\ (forall n, TaskModel.IsOverdue (TaskModel.Complete t n) now = false)
  /\ TaskModel.IsOverdue (TaskModel.RemoveDeadline t) now = false
  /\ TaskModel.IsOverdue (TaskModel.Reopen t) now
     = match deadline t with Some d => Time d <? now | None => false end
  /\ (forall d t', TaskModel.SetDeadline t d now = Ok t' ->
        TaskModel.IsOverdue t' now = false).
Proof.
  destruct t as [i o ti de [[dv]|] [|] ca];
    unfold TaskModel.IsOverdue, TaskModel.Complete, TaskModel.RemoveDeadline,
      TaskModel.Reopen, TaskModel.SetDeadline, TaskModel.with_deadline,
      TaskVO.IsOverdue, NewDeadline, Before, Time; simpl;
    (refine (conj _ (conj _ (conj _ (conj _ _))));
     [ split;
       [ intros Hb; try discriminate; destruct (dv <? now) eqn:E; simpl in Hb; try discriminate;
         exists (mkDeadline dv); apply Z.ltb_lt in E; auto
       | intros (d & Hd & Hlt & Hc); inversion Hd; subst; simpl in *;
         try discriminate; apply Z.ltb_lt in Hlt; now rewrite Hlt ]
     | intros n; simpl; try apply andb_false_r; reflexivity
     | reflexivity
     | simpl; try apply andb_true_r; reflexivity
     | intros d t' Hs; destruct (d <? now) eqn:E; inversion Hs; subst; simpl;
       try rewrite E; reflexivity ]).
Qed.


(** A task built by [NewTask] has the fresh id, the given owner, the
    trimmed title, the description as given, no deadline and is open;
    [NewTaskWithDeadline] builds the same task with a deadline not
    before [now], and reports a title or description error before
    looking at the deadline. *)
Theorem NewTask_fields (ti de : gostring) (o fid : string) (d now : time) :
  (forall t, NewTask ti de o fid = Ok t ->
     t = {| id := fid; owner := o; title := mkTitle (TrimSpace ti);
            description := mkDescription de; deadline := None;
            isCompleted := false; completedAt := None |})
  /\ (forall t, NewTaskWithDeadline ti de o d fid now = Ok t ->
     now <= d
     /\ exists t0, NewTask ti de o fid = Ok t0
                   /\ t = TaskModel.with_deadline t0 (Some (mkDeadline d)))
  /\ (forall e, NewTask ti de o fid = Err e ->
     NewTaskWithDeadline ti de o d fid now = Err e).
Proof.
  refine (conj _ (conj _ _)).
  - intros t Hn; unfold NewTask in Hn.
    destruct (NewTitle ti) as [v|e] eqn:E; [|discriminate].
    unfold NewDescription in Hn.
    destruct (rune_count de >? DescriptionMaxLength); inversion Hn; subst.
    now rewrite (NewTitle_ok_value _ _ E).
  - intros t Hn; unfold NewTaskWithDeadline in Hn.
    destruct (NewTask ti de o fid) as [t0|e]; [|discriminate].
    unfold NewDeadline, Before in Hn.
    destruct (d <? now) eqn:E; inversion Hn; subst.
    apply Z.ltb_ge in E; split; [lia | eauto].
  - intros e Hn; unfold NewTaskWithDeadline; now rewrite Hn.
Qed.

(** A task loaded by [NewTaskFromDB] carries the stored id, owner,
    description, completion fields and deadline, the trimmed title, and
    satisfies the task invariant; a stored deadline it accepts is not
    before [now]. *)
Theorem NewTaskFromDB_success (p : TaskFromDBParams) (now : time) (t : Task)
    (Hok : NewTaskFromDB p now = Ok t) :
  id t = p_ID p /\ owner t = p_Owner p
  /\ title_value (title t) = TrimSpace (p_Title p)
  /\ description_value (description t) = p_Description p
  /\ isCompleted t = p_IsCompleted p /\ completedAt t = p_CompletedAt p
  /\ option_map Time (deadline t) = p_Deadline p
  /\ (forall d, p_Deadline p = Some d -> now <= d)
  /\ task_inv t.
Proof.
  unfold NewTaskFromDB in Hok.
  destruct (_ || _) eqn:Hc; [discriminate|].
  assert (Hcons : p_IsCompleted p = isSome (p_CompletedAt p)).
  { destruct (p_IsCompleted p), (p_CompletedAt p); simpl in *; congruence. }
  destruct (NewTitle (p_Title p)) as [v|e] eqn:Et; [|discriminate].
  pose proof (NewTitle_ok_value _ _ Et) as Hv.
  unfold NewDescription in Hok.
  destruct (rune_count (p_Description p) >? DescriptionMaxLength); [discriminate|].
  assert (Hinv : forall c ca, c = isSome ca -> task_inv
            {| id := p_ID p; owner := p_Owner p; title := v;
               description := mkDescription (p_Description p);
               deadline := None; isCompleted := c; completedAt := ca |}).
  { intros c ca ->; apply task_inv_iff; reflexivity. }
  destruct (p_Deadline p) as [d|] eqn:Ed.
  - unfold NewDeadline, Before in Hok.
    destruct (d <? now) eqn:E; inversion Hok; subst; simpl.
    apply Z.ltb_ge in E.
    repeat split; auto; try (intros d' Hd'; inversion Hd'; lia);
      apply task_inv_iff; simpl; exact Hcons.
  - inversion Hok; subst; simpl.
    repeat split; auto; try discriminate; apply task_inv_iff; simpl; exact Hcons.
Qed.

Lemma NewTaskFromDB_success_witness :
  NewTaskFromDB (mkTaskFromDBParams "t-9" "owner-U" (of_string " Pay ") []
                   (Some 500) true (Some 100)) 200
  = Ok (mkTask "t-9" "owner-U" (mkTitle (of_string "Pay")) (mkDescription [])
               (Some (mkDeadline 500)) true (Some 100))
  /\ option_map Time (Some (mkDeadline 500)) = Some 500.
Proof.
  split; [vm_compute; reflexivity|].
  exact (proj1 (proj2 (proj2 (proj2 (proj2 (proj2 (proj2
           (NewTaskFromDB_success
              (mkTaskFromDBParams "t-9" "owner-U" (of_string " Pay ") []
                 (Some 500) true (Some 100)) 200
              (mkTask "t-9" "owner-U" (mkTitle (of_string "Pay")) (mkDescription [])
                 (Some (mkDeadline 500)) true (Some 100))
              ltac:(vm_compute; reflexivity))))))))).
Defined.

(** ** Task creation (TaskService.Create) *)

(** [TaskService.Create] returns a validation error of the task's
    constructor as it is and touches no repository; otherwise it calls
    [Create] once, with a task that has the fresh id, the command's owner,
    the command's deadline and is open, and maps a failing [Create]:
    [ErrTaskRepoExists] to [ErrTaskExists], [ErrTaskRepoOwnerNotFound] to
    [ErrTaskOwnerNotFound], anything else wrapped in [ErrTaskCreateFailed]. *)
Theorem CreateTask_outcomes {R : Type} `{TaskCreation.TaskStore R}
    (r : R) (log : list TaskCreation.RepoCall) (cmd : TaskCreation.CreateTaskCommand)
    (fid : string) (now : time) :
  let built :=
    match TaskCreation.cmd_Deadline cmd with
    | None => NewTask (TaskCreation.cmd_Title cmd) (TaskCreation.cmd_Description cmd)
                (TaskCreation.cmd_OwnerID cmd) fid
    | Some d => NewTaskWithDeadline (TaskCreation.cmd_Title cmd)
                  (TaskCreation.cmd_Description cmd) (TaskCreation.cmd_OwnerID cmd) d fid now
    end in
  (forall e, built = Err e ->
     TaskCreation.CreateTask cmd fid now (r, log) = (Some e, (r, log)))
  /\ (forall t, built = Ok t ->
     id t = fid /\ owner t = TaskCreation.cmd_OwnerID cmd
     /\ isCompleted t = false /\ completedAt t = None
     /\ option_map Time (deadline t) = TaskCreation.cmd_Deadline cmd
     /\ TaskCreation.CreateTask cmd fid now (r, log)
        = (match snd (TaskCreation.Create r t) with
           | None => None
           | Some e =>
               Some (if errors_is e ErrTaskRepoExists then Sentinel ErrTaskExists
                     else if errors_is e ErrTaskRepoOwnerNotFound
                     then Sentinel ErrTaskOwnerNotFound
                     else Wrapf ErrTaskCreateFailed e)
           end,
           (fst (TaskCreation.Create r t), log ++ [TaskCreation.CallCreate t]))).
Proof.
  intro built.
  assert (Hnew : forall t, NewTask (TaskCreation.cmd_Title cmd)
                   (TaskCreation.cmd_Description cmd) (TaskCreation.cmd_OwnerID cmd) fid = Ok t ->
            id t = fid /\ owner t = TaskCreation.cmd_OwnerID cmd
            /\ isCompleted t = false /\ completedAt t = None /\ deadline t = None).
  { intros t Hn; unfold NewTask in Hn.
    destruct (NewTitle _); [|discriminate].
    destruct (NewDescription _); inversion Hn; subst; repeat split. }
  split.
  - intros e Hb; unfold TaskCreation.CreateTask; fold built; rewrite Hb; reflexivity.
  - intros t Hb.
    assert (Hcall : TaskCreation.CreateTask cmd fid now (r, log)
        = (match snd (TaskCreation.Create r t) with
           | None => None
           | Some e =>
               Some (if errors_is e ErrTaskRepoExists then Sentinel ErrTaskExists
                     else if errors_is e ErrTaskRepoOwnerNotFound
                     then Sentinel ErrTaskOwnerNotFound
                     else Wrapf ErrTaskCreateFailed e)
           end,
           (fst (TaskCreation.Create r t), log ++ [TaskCreation.CallCreate t]))).
    { unfold TaskCreation.CreateTask; fold built; rewrite Hb.
      unfold TaskCreation.bind, TaskCreation.repoCreate, TaskCreation.ret; simpl.
      destruct (TaskCreation.Create r t) as [r' [e|]]; simpl; [|reflexivity].
      destruct (errors_is e ErrTaskRepoExists), (errors_is e ErrTaskRepoOwnerNotFound);
        reflexivity. }
    subst built; destruct (TaskCreation.cmd_Deadline cmd) as [d|] eqn:Ed.
    + unfold NewTaskWithDeadline in Hb.
      destruct (NewTask _ _ _ fid) as [t0|] eqn:Et0; [|discriminate].
      unfold NewDeadline, Before in Hb.
      destruct (d <? now); inversion Hb; subst.
      destruct (Hnew t0 eq_refl) as (H1 & H2 & H3 & H4 & _).
      simpl; auto 7.
    + destruct (Hnew t Hb) as (H1 & H2 & H3 & H4 & H5).
      rewrite H5; auto 7.
Qed.
